(** * expand_dividends: a shallow embedding of [expand_dividends.py]

    The program turns a sparse list of dividend payments (date, percent)
    into one record per calendar day.  This file embeds the functions of
    [expand_dividends.py] as Rocq functions and proves properties of them.

    Conventions of the embedding.
    - A [datetime] is a midnight timestamp, represented by its proleptic
      Gregorian ordinal (the value of [datetime.toordinal()]), a [Z].  Every
      datetime the program builds comes from [strptime] with the format
      [%Y-%m-%d] or from adding whole days, so the time of day is always
      midnight.  The library's datetimes run from 0001-01-01 to 9999-12-31:
      a [Dividend] holds an ordinal in that range, and adding days past
      its end raises [OverflowError].
    - A Python [float] is represented by an exact rational ([Q]); [==] on
      floats is [Qeq].  Where a property rests on one float computation,
      that computation is checked in binary64 as well.
    - A Python [int] is a [Z].
    - A call that may raise returns a [result]: [Ok v] or [Raise e]. *)

From Stdlib Require Import Floats.PrimFloat.
From Stdlib Require Import String Ascii.
From Stdlib Require Import ZArith QArith Qround Qfield List Bool Lia.
From Stdlib Require Import Sorting.Sorted Sorting.Permutation.
Import ListNotations.
Open Scope Z_scope.

(** ** Exceptions and results *)

(** The exceptions of the program, and [InsufficientDataError], which the
    specification names and which no function of the program raises. *)
Inductive exn : Type :=
| ValueError | TypeError | ZeroDivisionError | IndexError
| AssertionError | StopIteration | OverflowError
| InsufficientDataError.

Inductive result (A : Type) : Type :=
| Ok (a : A)
| Raise (e : exn).
Arguments Ok {A} a.
Arguments Raise {A} e.

Definition bind {A B} (r : result A) (k : A -> result B) : result B :=
  match r with
  | Ok a => k a
  | Raise e => Raise e
  end.

Notation "x <- c ;; k" := (bind c (fun x => k))
  (at level 61, c at next level, right associativity).
Notation "' p <- c ;; k" := (bind c (fun x => let p := x in k))
  (at level 61, p pattern, c at next level, right associativity).

(** [assert c]. *)
Definition assert (c : bool) : result unit :=
  if c then Ok tt else Raise AssertionError.

(** A [for] loop whose body may raise: the loop state is threaded through
    the items in order and the first exception ends the loop. *)
Fixpoint for_each {A S} (body : S -> A -> result S) (items : list A) (s : S)
  : result S :=
  match items with
  | [] => Ok s
  | x :: rest => s' <- body s x ;; for_each body rest s'
  end.

(** ** Python builtins used by the program *)
Module Py.

(** [l[i]], with Python's negative indices. *)
Definition index {A} (l : list A) (i : Z) : result A :=
  let n := Z.of_nat (length l) in
  let j := if i <? 0 then i + n else i in
  if (j <? 0) || (n <=? j) then Raise IndexError
  else match nth_error l (Z.to_nat j) with
       | Some x => Ok x
       | None => Raise IndexError
       end.

(** [range(n)]: empty when [n <= 0]. *)
Definition range (n : Z) : list Z := map Z.of_nat (seq 0 (Z.to_nat n)).

Fixpoint enumerate_from {A} (i : Z) (l : list A) : list (Z * A) :=
  match l with
  | [] => []
  | x :: rest => (i, x) :: enumerate_from (i + 1) rest
  end.

(** [enumerate(l)]. *)
Definition enumerate {A} (l : list A) : list (Z * A) := enumerate_from 0 l.

(** [len(l)]. *)
Definition len {A} (l : list A) : Z := Z.of_nat (length l).

(** [a / b] on two ints: true division, a float. *)
Definition truediv (a b : Z) : result Q :=
  if b =? 0 then Raise ZeroDivisionError
  else Ok (inject_Z a / inject_Z b)%Q.

(** [math.ceil]. *)
Definition ceil (x : Q) : Z := Qceiling x.

Section Keyed.
Context {A : Type} (key : A -> Z).

(** [sorted(l, key=key)] and [l.sort(key=key)] are stable: items with
    equal keys keep their order.  A stable sort has only one possible
    result, computed here by insertion. *)
Fixpoint insert (x : A) (l : list A) : list A :=
  match l with
  | [] => [x]
  | y :: rest => if key x <=? key y then x :: l else y :: insert x rest
  end.

Fixpoint sorted (l : list A) : list A :=
  match l with
  | [] => []
  | x :: rest => insert x (sorted rest)
  end.

(** [min(l, key=key)]: the first item with the least key. *)
Fixpoint min_from (best : A) (l : list A) : A :=
  match l with
  | [] => best
  | x :: rest => min_from (if key x <? key best then x else best) rest
  end.

Definition min (l : list A) : result A :=
  match l with
  | [] => Raise ValueError
  | x :: rest => Ok (min_from x rest)
  end.

(** [max(l, key=key)]: the first item with the greatest key. *)
Fixpoint max_from (best : A) (l : list A) : A :=
  match l with
  | [] => best
  | x :: rest => max_from (if key best <? key x then x else best) rest
  end.

Definition max (l : list A) : result A :=
  match l with
  | [] => Raise ValueError
  | x :: rest => Ok (max_from x rest)
  end.
End Keyed.

End Py.

(** ** Calendar dates

    The day arithmetic of the library's [datetime] module: the ordinal of a
    calendar day is computed as the library computes [toordinal()]. *)
Module Datetime.

(** A midnight [datetime], as its proleptic Gregorian ordinal
    (0001-01-01 is day 1). *)
Definition datetime : Type := Z.

Definition is_leap (year : Z) : bool :=
  (year mod 4 =? 0) && (negb (year mod 100 =? 0) || (year mod 400 =? 0)).

Definition days_in_month (year month : Z) : Z :=
  if (month =? 2) && is_leap year then 29
  else nth (Z.to_nat month) [-1; 31; 28; 31; 30; 31; 30; 31; 31; 30; 31; 30; 31] (-1).

Definition days_before_year (year : Z) : Z :=
  let y := year - 1 in y * 365 + y / 4 - y / 100 + y / 400.

Definition days_before_month (year month : Z) : Z :=
  nth (Z.to_nat month) [-1; 0; 31; 59; 90; 120; 151; 181; 212; 243; 273; 304; 334] (-1)
  + (if (2 <? month) && is_leap year then 1 else 0).

(** The ordinal of a calendar day. *)
Definition ymd2ord (year month day : Z) : Z :=
  days_before_year year + days_before_month year month + day.

(** [datetime(year, month, day)]. *)
Definition make (year month day : Z) : result datetime :=
  if (1 <=? year) && (year <=? 9999) && (1 <=? month) && (month <=? 12)
     && (1 <=? day) && (day <=? days_in_month year month)
  then Ok (ymd2ord year month day)
  else Raise ValueError.

(** The ordinal of a calendar day, for writing dates in statements. *)
Definition ymd (year month day : Z) : datetime := ymd2ord year month day.

(** The ordinal of 9999-12-31, the last day a [datetime] can hold. *)
Definition max_ordinal : Z := 3652059.

(** The ordinals of the library's datetimes. *)
Definition valid (ordinal : Z) : bool :=
  (1 <=? ordinal) && (ordinal <=? max_ordinal).

(** [dt + timedelta(days=d)]: a date out of the library's range is an
    [OverflowError]. *)
Definition add_days (dt : datetime) (d : Z) : result datetime :=
  if valid (dt + d) then Ok (dt + d) else Raise OverflowError.

(** [(a - b).days]. *)
Definition days_between (a b : datetime) : Z := a - b.

End Datetime.
Import Datetime.

(** ** The record of the program: [class Dividend] *)

(** [end_date] is set to [None] by the constructor and never read or written
    again; it is left out.  [dividend] is [None] when the event is only a
    date marker.  [date] is a datetime of the library: its ordinal is in the
    library's range. *)
Record Dividend : Type := Dividend_of {
  date : datetime;
  dividend : option Q;
  date_valid : Datetime.valid date = true
}.

(** An ordinal as a datetime.  An ordinal out of the library's range is no
    datetime, and the program never has one; day 1 stands for it. *)
Definition in_range (ordinal : Z) : datetime :=
  if Datetime.valid ordinal then ordinal else 1.

Definition in_range_valid (ordinal : Z)
  : Datetime.valid (in_range ordinal) = true :=
  match Datetime.valid ordinal as b
        return (Datetime.valid ordinal = b ->
                Datetime.valid (if b then ordinal else 1) = true)
  with
  | true => fun H => H
  | false => fun _ => eq_refl
  end eq_refl.

(** The record of a date and an amount. *)
Definition mkDividend (date : datetime) (dividend : option Q) : Dividend :=
  Dividend_of (in_range date) dividend (in_range_valid date).

(** [!=] on the [dividend] fields: [None] differs from every float. *)
Definition amount_eqb (a b : option Q) : bool :=
  match a, b with
  | None, None => true
  | Some x, Some y => Qeq_bool x y
  | _, _ => false
  end.

(** [Dividend.__eq__] on two [Dividend]s. *)
Definition Dividend_eqb (a b : Dividend) : bool :=
  if negb (date a =? date b) then false
  else if negb (amount_eqb (dividend a) (dividend b)) then false
  else true.

(** [x / n] for the [dividend] field [x] and an int [n]: a [TypeError]
    when the field is [None].  The quotient is the exact one: the rounding
    of the binary64 division is not modelled. *)
Definition amount_div (x : option Q) (n : Z) : result Q :=
  match x with
  | None => Raise TypeError
  | Some q => if n =? 0 then Raise ZeroDivisionError
              else Ok (q / inject_Z n)%Q
  end.

(** ** Construction of events and the parser *)

(** What a caller passes as [date]: a string to be parsed, or a datetime. *)
Inductive date_arg : Type :=
| DateStr (s : string)
| DateObj (d : datetime).

(** What a caller passes as [dividend]: nothing ([None], the default), a
    string to be converted, or a float. *)
Inductive dividend_arg : Type :=
| AmountNone
| AmountStr (s : string)
| AmountNum (x : Q).

(** One row as [csv.DictReader] yields it for [fieldnames=FIELDS], with
    [FIELDS = ['date', 'dividend']]: the first cell under ['date'], the
    second under ['dividend'] ([None] when the row has one cell), and the
    cells after the second, when there are any, under the key [None]. *)
Record row_dict : Type := mkRow {
  row_date : string;
  row_dividend : option string;
  row_rest : list string
}.

(** [csv.DictReader.__next__] on one row of cells: blank rows are skipped. *)
Definition DictReader_row (cells : list string) : option row_dict :=
  match cells with
  | [] => None
  | [d] => Some (mkRow d None [])
  | d :: v :: rest => Some (mkRow d (Some v) rest)
  end.

(** [csv_file(path, fields=FIELDS)]: the generator's items.  The file is given
    by the rows of cells that [csv.reader] finds in it. *)
Fixpoint csv_file (file : list (list string)) : list row_dict :=
  match file with
  | [] => []
  | cells :: rest =>
      match DictReader_row cells with
      | Some r => r :: csv_file rest
      | None => csv_file rest
      end
  end.

Section Parser.
(** [datetime.strptime(s, DATE_FORMAT)] and [float(s)] are library calls;
    both raise [ValueError] on text they do not accept. *)
Variable strptime : string -> result datetime.
Variable float_of_str : string -> result Q.

(** [Dividend.__init__]. *)
Definition Dividend_init (date : date_arg) (dividend : dividend_arg)
  : result Dividend :=
  self_date <- match date with
               | DateStr s => strptime s
               | DateObj d => Ok d
               end ;;
  self_dividend <- match dividend with
                   | AmountStr s => x <- float_of_str s ;; Ok (Some x)
                   | AmountNum x => Ok (Some x)
                   | AmountNone => Ok None
                   end ;;
  Ok (mkDividend self_date self_dividend).

(** The call of [Dividend] with the row as its keyword arguments: a key
    that is not a string ([None], for the cells after the second) is a
    [TypeError]. *)
Definition Dividend_kwargs (div : row_dict) : result Dividend :=
  match row_rest div with
  | _ :: _ => Raise TypeError
  | [] => Dividend_init (DateStr (row_date div))
            (match row_dividend div with
             | Some v => AmountStr v
             | None => AmountNone
             end)
  end.

(** [read_src_file]. *)
Definition read_src_file (file : list (list string)) : result (list Dividend) :=
  let dividends := [] in
  let csv := csv_file file in
  match csv with
  | [] => Raise StopIteration
  | _header :: csv =>
      dividends <- for_each (fun dividends div =>
                               d <- Dividend_kwargs div ;;
                               Ok (dividends ++ [d])) csv dividends ;;
      Ok (Py.sorted date dividends)
  end.
End Parser.

(** ** Lookup and averaging *)

Fixpoint last_dividend_before_loop (dividends : list Dividend) (date0 : datetime)
  (items : list (Z * Dividend)) : result (option Dividend) :=
  match items with
  | [] => Ok None
  | (i, d) :: rest =>
      if date0 <? date d then x <- Py.index dividends (i - 1) ;; Ok (Some x)
      else last_dividend_before_loop dividends date0 rest
  end.

(** [last_dividend_before]: [Ok None] is the function running off its end. *)
Definition last_dividend_before (dividends : list Dividend) (date0 : datetime)
  : result (option Dividend) :=
  let dividends := Py.sorted date dividends in
  last_dividend_before_loop dividends date0 (Py.enumerate dividends).

(** The body of the loop of [avg_days_between], on the state
    [(s, last_div)]. *)
Definition avg_days_between_body (dividends : list Dividend)
  (st : Z * option Dividend) (item : Z * Dividend)
  : result (Z * option Dividend) :=
  let '(s, last_div) := st in
  let '(i, div) := item in
  match last_div with
  | None => Ok (s, Some div)
  | Some last_div =>
      let days_between := days_between (date div) (date last_div) in
      let s := s + days_between in
      last_div <- Py.index dividends i ;;
      Ok (s, Some last_div)
  end.

(** [avg_days_between]. *)
Definition avg_days_between (dividends : list Dividend) : result Q :=
  let dividends := Py.sorted date dividends in
  st <- for_each (avg_days_between_body dividends) (Py.enumerate dividends)
          (0, None) ;;
  avg <- Py.truediv (fst st) (Py.len dividends - 1) ;;
  Ok avg.

(** ** The daily expansion *)

(** The inner loops of [daily_dividends] (lines 107-108 and 112-113):
    [for d in range(days_between): days.append(Dividend(src.date +
    timedelta(days=d), src.dividend / days_between))]. *)
Definition spread (src : Dividend) (days_between : Z) (days : list Dividend)
  : result (list Dividend) :=
  for_each (fun days d =>
              day <- add_days (date src) d ;;
              x <- amount_div (dividend src) days_between ;;
              Ok (days ++ [mkDividend day (Some x)]))
           (Py.range days_between) days.

(** The body of the interpolation loop (lines 102-108). *)
Definition interpolate_body (dividends : list Dividend) (days : list Dividend)
  (item : Z * Dividend) : result (list Dividend) :=
  let '(i, div) := item in
  if i =? 0 then Ok days
  else
    last_div <- Py.index dividends (i - 1) ;;
    let days_between := days_between (date div) (date last_div) in
    spread last_div days_between days.

(** Lines 94-115 of [daily_dividends], on the list as sorted by line 93. *)
Definition daily_dividends_sorted (dividends : list Dividend)
  (predict_future_dividend : bool) : result (list Dividend) :=
  lo <- Py.min date dividends ;;
  hi <- Py.max date dividends ;;
  day_after <- add_days (date hi) 1 ;;
  let range_of_dates := (date lo, day_after) in
  let num_dates := days_between (snd range_of_dates) (fst range_of_dates) in
  first <- Py.index dividends 0 ;;
  _ <- assert (fst range_of_dates =? date first) ;;
  last <- Py.index dividends (-1) ;;
  day_after <- add_days (date last) 1 ;;
  _ <- assert (snd range_of_dates =? day_after) ;;
  let days := [] in
  days <- for_each (interpolate_body dividends) (Py.enumerate dividends) days ;;
  if predict_future_dividend then
    avg <- avg_days_between dividends ;;
    let days_between := Py.ceil avg in
    last <- Py.index dividends (-1) ;;
    spread last days_between days
  else Ok days.

(** [daily_dividends].  The call sorts the caller's list in place before
    anything else, so it has two results: the caller's list as the call
    leaves it, and what the call returns or raises. *)
Definition daily_dividends (dividends : list Dividend)
  (predict_future_dividend : bool) : list Dividend * result (list Dividend) :=
  let dividends := Py.sorted date dividends in
  (dividends, daily_dividends_sorted dividends predict_future_dividend).

(** The default of [predict_future_dividend]. *)
Definition predict_future_dividend_default : bool := true.

(** [unittest]'s [assertCountEqual] on lists of [Dividend]s, which are not
    hashable: every item occurs as often, up to [==], in both lists. *)
Definition count_eq (x : Dividend) (l : list Dividend) : nat :=
  List.length (filter (Dividend_eqb x) l).

Definition assertCountEqual (first second : list Dividend) : bool :=
  forallb (fun x => Nat.eqb (count_eq x first) (count_eq x second))
          (first ++ second).

(** ** The library's text conversions on plain ASCII text

    The theorems about the parser hold for every [strptime] and [float];
    the definitions below fix them on plain ASCII text, for stating what
    the parser does on a given file. *)
Module Text.

Definition digit (c : ascii) : option Z :=
  let n := Z.of_nat (nat_of_ascii c) in
  if (48 <=? n) && (n <=? 57) then Some (n - 48) else None.

Definition is_char (c : ascii) (n : nat) : bool := Nat.eqb (nat_of_ascii c) n.

(** The month of [%m]: [1[0-2]|0[1-9]|[1-9]], followed by the [-] of the
    format. *)
Definition month_then_dash (s : list ascii) : option (Z * list ascii) :=
  let two :=
    match s with
    | a :: b :: c :: rest =>
        match digit a, digit b with
        | Some x, Some y =>
            if is_char c 45
               && (((x =? 1) && (y <=? 2)) || ((x =? 0) && (1 <=? y)))
            then Some (10 * x + y, rest) else None
        | _, _ => None
        end
    | _ => None
    end in
  match two with
  | Some r => Some r
  | None =>
      match s with
      | a :: c :: rest =>
          match digit a with
          | Some x => if is_char c 45 && (1 <=? x) then Some (x, rest) else None
          | None => None
          end
      | _ => None
      end
  end.

(** The day of [%d]: the first alternative of
    [3[0-1]|[1-2]\d|0[1-9]|[1-9]| [1-9]] that matches. *)
Definition day_prefix (s : list ascii) : option (Z * list ascii) :=
  let two :=
    match s with
    | a :: b :: rest =>
        match digit a, digit b with
        | Some x, Some y =>
            if ((x =? 3) && (y <=? 1)) || ((1 <=? x) && (x <=? 2))
               || ((x =? 0) && (1 <=? y))
            then Some (10 * x + y, rest) else None
        | _, _ => None
        end
    | _ => None
    end in
  match two with
  | Some r => Some r
  | None =>
      match s with
      | a :: rest =>
          match digit a with
          | Some x => if 1 <=? x then Some (x, rest) else None
          | None =>
              if is_char a 32 then
                match rest with
                | b :: rest' =>
                    match digit b with
                    | Some y => if 1 <=? y then Some (y, rest') else None
                    | None => None
                    end
                | [] => None
                end
              else None
          end
      | [] => None
      end
  end.

(** [datetime.strptime(s, "%Y-%m-%d")]: four digits, the month and the
    day as above, nothing after the day, and a day that exists. *)
Definition strptime (s : string) : result datetime :=
  match list_ascii_of_string s with
  | y1 :: y2 :: y3 :: y4 :: dash :: rest =>
      match digit y1, digit y2, digit y3, digit y4 with
      | Some a, Some b, Some c, Some d =>
          if is_char dash 45 then
            match month_then_dash rest with
            | Some (m, rest) =>
                match day_prefix rest with
                | Some (dd, []) =>
                    Datetime.make (1000 * a + 100 * b + 10 * c + d) m dd
                | _ => Raise ValueError
                end
            | None => Raise ValueError
            end
          else Raise ValueError
      | _, _, _, _ => Raise ValueError
      end
  | _ => Raise ValueError
  end.

(** The digits at the head of [s], as the number they write and their
    count, and the text after them. *)
Fixpoint digits (acc : Z) (n : nat) (s : list ascii) : Z * nat * list ascii :=
  match s with
  | c :: rest =>
      match digit c with
      | Some x => digits (10 * acc + x) (S n) rest
      | None => (acc, n, s)
      end
  | [] => (acc, n, s)
  end.

(** [float(s)] on an unsigned decimal literal: digits, and optionally a
    point and digits, with a digit somewhere; the value is exact.  Other
    text that [float] accepts (signs, exponents, blanks, [inf], [nan]) is
    outside this definition and raises here. *)
Definition float_of_str (s : string) : result Q :=
  let '(ip, ni, rest) := digits 0 0 (list_ascii_of_string s) in
  match rest with
  | [] => if Nat.eqb ni 0 then Raise ValueError else Ok (inject_Z ip)
  | c :: rest =>
      if is_char c 46 then
        let '(fp, nf, rest) := digits 0 0 rest in
        match rest with
        | [] =>
            if Nat.eqb (ni + nf) 0 then Raise ValueError
            else Ok (inject_Z ip + inject_Z fp / inject_Z (10 ^ Z.of_nat nf))%Q
        | _ :: _ => Raise ValueError
        end
      else Raise ValueError
  end.

End Text.

(** ** Vocabulary of the specification *)

(** The event carries an amount. *)
Definition has_amount (e : Dividend) : bool :=
  match dividend e with
  | Some _ => true
  | None => false
  end.

(** Ascending order of dates. *)
Definition date_le (a b : Dividend) : Prop := date a <= date b.

(** The consecutive pairs [(prev, next)] of a sequence. *)
Definition pairs (l : list Dividend) : list (Dividend * Dividend) :=
  combine l (tl l).

(** The daily records of one period: one per day offset [d] in [[0, gap)],
    dated [src.date + d], each with the amount [src.amount / gap]. *)
Definition period (src : Dividend) (gap : Z) : list Dividend :=
  map (fun d => mkDividend (date src + d)
                  (option_map (fun a => (a / inject_Z gap)%Q) (dividend src)))
      (Py.range gap).

(** The gap, in days, of a consecutive pair. *)
Definition gap (p : Dividend * Dividend) : Z := date (snd p) - date (fst p).

(** The interpolation of a sequence: the periods of its consecutive pairs,
    in order. *)
Definition interpolation (l : list Dividend) : list Dividend :=
  flat_map (fun p => period (fst p) (gap p)) (pairs l).

(** The arithmetic mean of day counts. *)
Definition mean (xs : list Z) : Q :=
  (inject_Z (fold_right Z.add 0%Z xs) / inject_Z (Z.of_nat (List.length xs)))%Q.



(** The calendar days from [first] through [last], both included. *)
Definition calendar_days (first last : datetime) : list datetime :=
  map (fun d => first + d) (Py.range (last - first + 1)).

(** The events of the rows of a file in the order of the rows, as the
    specification words the parser's result. *)
Fixpoint events_in_row_order (strptime : string -> result datetime)
  (float_of_str : string -> result Q) (rows : list row_dict)
  : result (list Dividend) :=
  match rows with
  | [] => Ok []
  | r :: rest =>
      e <- Dividend_kwargs strptime float_of_str r ;;
      es <- events_in_row_order strptime float_of_str rest ;;
      Ok (e :: es)
  end.

(** The day count of the extrapolated period: the mean of the gaps of the
    events sorted by date, rounded up. *)
Definition extrapolation_days (l : list Dividend) : Z :=
  Py.ceil (mean (map gap (pairs (Py.sorted date l)))).

(** No event is dated 9999-12-31, the last day a datetime can hold. *)
Definition before_last_day (l : list Dividend) : bool :=
  forallb (fun e => date e <? Datetime.max_ordinal) l.

(** The extrapolated days of every event stay within the library's range:
    [g] days counted from the event's date end by 9999-12-31. *)
Definition extrapolation_in_range (l : list Dividend) : bool :=
  forallb (fun e => date e + extrapolation_days l <=? Datetime.max_ordinal + 1)
          l.

(** ** Inputs and statements of the properties *)

(** Ascending order of keys. *)
Definition key_le {A : Type} (key : A -> Z) (a b : A) : Prop := key a <= key b.

(** The three events of the program's own test, in the order of the test. *)
Definition test_events : list Dividend :=
  [mkDividend (ymd 2020 10 10) (Some (3 # 10)%Q);
   mkDividend (ymd 2020 9 10) (Some (3 # 10)%Q);
   mkDividend (ymd 2020 8 11) (Some (3 # 10)%Q)].

(** The events of the lookup test. *)
Definition lookup_events : list Dividend :=
  [mkDividend (ymd 2020 10 18) None;
   mkDividend (ymd 2020 10 20) None;
   mkDividend (ymd 2020 10 22) None].

(** The specification's statement of the interpolation, for one input: for
    two events or more with distinct dates, the pass emits the periods of
    the consecutive pairs of the sorted events, each of exactly [gap]
    records, and never the date of the last event. *)
Definition interpolation_claim (dividends : list Dividend) : Prop :=
  (2 <= List.length dividends)%nat ->
  NoDup (map date dividends) ->
  exists last_event,
    Py.index (Py.sorted date dividends) (-1) = Ok last_event
    /\ snd (daily_dividends dividends false)
       = Ok (interpolation (Py.sorted date dividends))
    /\ (forall prev next,
          In (prev, next) (pairs (Py.sorted date dividends)) ->
          0 < gap (prev, next)
          /\ Z.of_nat (List.length (period prev (gap (prev, next))))
             = gap (prev, next))
    /\ ~ In (date last_event)
            (map date (interpolation (Py.sorted date dividends))).

(** The specification's statement of the extrapolation, for one input: for
    two events or more, with the default flag, the output is the
    interpolation followed by the period of the latest event, of [g] days,
    [g] the ceiling of the average interval. *)
Definition extrapolation_claim (dividends : list Dividend) : Prop :=
  (2 <= List.length dividends)%nat ->
  exists last_event,
    Py.index (Py.sorted date dividends) (-1) = Ok last_event
    /\ snd (daily_dividends dividends predict_future_dividend_default)
       = Ok (interpolation (Py.sorted date dividends)
             ++ period last_event (extrapolation_days dividends)).

(** The specification's requirement on an input with fewer than two events:
    both operations fail with [InsufficientDataError]. *)
Definition insufficient_data_claim (dividends : list Dividend) : Prop :=
  avg_days_between dividends = Raise InsufficientDataError
  /\ forall flag,
       snd (daily_dividends dividends flag) = Raise InsufficientDataError.

(** The specification's requirement on an input with a repeated date: the
    interpolation fails with an error. *)
Definition duplicate_dates_claim (dividends : list Dividend) : Prop :=
  exists flag e, snd (daily_dividends dividends flag) = Raise e.

(** The specification's wording of the parser: the events of the rows after
    the header row, in the order of the rows. *)
Definition parser_keeps_row_order (strptime : string -> result datetime)
  (float_of_str : string -> result Q) (file : list (list string)) : Prop :=
  exists header data,
    file = header :: data
    /\ read_src_file strptime float_of_str file
       = events_in_row_order strptime float_of_str (csv_file data).

(** A file whose rows are not in the order of their dates. *)
Definition unordered_file : list (list string) :=
  [["Date"; "Dividends"];
   ["2020-10-10"; "0.3"];
   ["2020-09-10"; "0.3"]]%string.

(** The three events of the end-to-end property, in the order the
    specification lists them. *)
Definition spec_events : list Dividend :=
  [mkDividend (ymd 2020 8 11) (Some (3 # 10)%Q);
   mkDividend (ymd 2020 9 10) (Some (3 # 10)%Q);
   mkDividend (ymd 2020 10 10) (Some (3 # 10)%Q)].

(** One record per calendar day from [first] through [last], both included,
    each with the amount [q]. *)
Definition daily_series (first last : datetime) (q : Q) : list Dividend :=
  map (fun dt => mkDividend dt (Some q)) (calendar_days first last).

(** The end-to-end property for a given last day: the expansion of [events]
    with the default flag has exactly 90 records, and they are, as an
    unordered collection, one record of amount 0.01 per calendar day from
    2020-08-11 through [last_day]. *)
Definition end_to_end (events : list Dividend) (last_day : datetime) : Prop :=
  exists days,
    snd (daily_dividends events predict_future_dividend_default) = Ok days
    /\ List.length days = 90%nat
    /\ assertCountEqual days
         (daily_series (ymd 2020 8 11) last_day (1 # 100)%Q) = true.

(** ** The writer and the pipeline *)

Section Writer.
(** [d.date.strftime(DATE_FORMAT)] and the text [csv.writer] writes for a
    float, [str(x)], are library calls; neither raises. *)
Variable strftime : datetime -> string.
Variable str_of_float : Q -> string.

(** The cell [csv.writer] writes for the [dividend] field: the empty text
    for [None]. *)
Definition dividend_cell (x : option Q) : string :=
  match x with
  | Some v => str_of_float v
  | None => EmptyString
  end.

(** [write_csv_file]: the rows written to the destination, which is given,
    like the source, by its rows of cells. *)
Definition write_csv_file (dividends : list Dividend) : list (list string) :=
  let csvfile := [["Date"; "Dividend"]%string] in
  fold_left (fun csvfile d =>
               csvfile ++ [[strftime (date d); dividend_cell (dividend d)]])
            dividends csvfile.
End Writer.

Section Pipeline.
Variable strptime : string -> result datetime.
Variable float_of_str : string -> result Q.
Variable strftime : datetime -> string.
Variable str_of_float : Q -> string.

(** [main], run with [--src] and [--dst] and without [--test]: [src] is the
    source file when it exists.
    The result is the value [main] returns ([1] or [None]) and the
    destination file when one is written. *)
Definition main (src : option (list (list string)))
  : result (option Z * option (list (list string))) :=
  match src with
  | None => Ok (Some 1, None)
  | Some src =>
      dividends <- read_src_file strptime float_of_str src ;;
      dividend_days <- snd (daily_dividends dividends
                              predict_future_dividend_default) ;;
      Ok (None, Some (write_csv_file strftime str_of_float dividend_days))
  end.
End Pipeline.

(** ** The library's text output on plain values *)
Module Format.

(** The calendar day of an ordinal, as the library's [datetime] computes
    it. *)
Definition ord2ymd (ordinal : Z) : Z * Z * Z :=
  let n := ordinal - 1 in
  let n400 := n / 146097 in
  let n := n mod 146097 in
  let year := n400 * 400 + 1 in
  let n100 := n / 36524 in
  let n := n mod 36524 in
  let n4 := n / 1461 in
  let n := n mod 1461 in
  let n1 := n / 365 in
  let n := n mod 365 in
  let year := year + n100 * 100 + n4 * 4 + n1 in
  if (n1 =? 4) || (n100 =? 4) then (year - 1, 12, 31)
  else
    let leapyear := (n1 =? 3) && (negb (n4 =? 24) || (n100 =? 3)) in
    let month := Z.shiftr (n + 50) 5 in
    let preceding :=
      nth (Z.to_nat month)
          [-1; 0; 31; 59; 90; 120; 151; 181; 212; 243; 273; 304; 334] (-1)
      + (if (2 <? month) && leapyear then 1 else 0) in
    if n <? preceding then
      let month := month - 1 in
      let preceding :=
        preceding
        - (nth (Z.to_nat month)
               [-1; 31; 28; 31; 30; 31; 30; 31; 31; 30; 31; 30; 31] (-1)
           + (if (month =? 2) && leapyear then 1 else 0)) in
      (year, month, n - preceding + 1)
    else (year, month, n - preceding + 1).

Definition digit_char (n : Z) : ascii := ascii_of_nat (48 + Z.to_nat (n mod 10)).

(** The last [k] decimal digits of [n], with leading zeros. *)
Fixpoint padded (k : nat) (n : Z) : string :=
  match k with
  | O => EmptyString
  | S k' => (padded k' (n / 10) ++ String (digit_char n) EmptyString)%string
  end.

(** The decimal digits of [n >= 0], without leading zeros. *)
Fixpoint unpadded (fuel : nat) (n : Z) (acc : string) : string :=
  match fuel with
  | O => String (digit_char n) acc
  | S fuel' =>
      if n <? 10 then String (digit_char n) acc
      else unpadded fuel' (n / 10) (String (digit_char n) acc)
  end.

Definition decimal (n : Z) : string :=
  unpadded (Z.to_nat (Z.log2 n)) n EmptyString.

(** [dt.strftime("%Y-%m-%d")] for the years from 1000 on: four, two and
    two digits. *)
Definition strftime (dt : datetime) : string :=
  let '(y, m, d) := ord2ymd dt in
  (padded 4 y ++ "-" ++ padded 2 m ++ "-" ++ padded 2 d)%string.

(** The least [k], from [k] on and within [fuel] steps, such that [r / den]
    has [k] decimal places. *)
Fixpoint decimal_places (fuel k : nat) (r den : Z) : nat :=
  match fuel with
  | O => k
  | S fuel' =>
      if (r * 10 ^ Z.of_nat k) mod den =? 0 then k
      else decimal_places fuel' (S k) r den
  end.

(** [str(x)] for a float that is a decimal fraction of at most 17 places
    and is printed without an exponent: the integer part, the point and the
    decimal places, at least one.  Other values are cut after 17 places
    here, which is not what the library prints. *)
Definition str_of_float (x : Q) : string :=
  let num := Z.abs (Qnum x) in
  let den := Zpos (Qden x) in
  let r := num mod den in
  let k := Nat.max 1 (decimal_places 17 0 r den) in
  let sign := if Qnum x <? 0 then "-"%string else EmptyString in
  let places := padded k (r * 10 ^ Z.of_nat k / den) in
  (sign ++ decimal (num / den) ++ "." ++ places)%string.

End Format.

(** Equality of two records as [==] has it, and of two series record by
    record. *)
Definition same_records (l1 l2 : list Dividend) : Prop :=
  Forall2 (fun a b => Dividend_eqb a b = true) l1 l2.

(** ** Facts about the builtins *)

Lemma last_cons {A} (y : A) (l : list A) (x : A) :
  last (y :: l) x = last l y.
Proof.
  revert x y. induction l as [|z l IH]; intros x y; [reflexivity|].
  change (last (y :: z :: l) x) with (last (z :: l) x).
  now rewrite (IH x z), (IH y z).
Qed.

Lemma last_In {A} (x : A) (l : list A) : In (last l x) (x :: l).
Proof.
  revert x. induction l as [|y l IH]; intros x; [now left|].
  rewrite last_cons. right. apply IH.
Qed.

Section SortFacts.
Context {A : Type} (key : A -> Z).

Lemma insert_perm (x : A) (l : list A) :
  Permutation (x :: l) (Py.insert key x l).
Proof.
  induction l as [|y l IH]; simpl.
  - apply Permutation_refl.
  - destruct (key x <=? key y).
    + apply Permutation_refl.
    + eapply perm_trans; [apply perm_swap|]. now apply perm_skip.
Qed.

Lemma sorted_perm (l : list A) : Permutation l (Py.sorted key l).
Proof.
  induction l as [|x l IH]; simpl.
  - constructor.
  - eapply perm_trans; [apply perm_skip, IH | apply insert_perm].
Qed.

Lemma sorted_length (l : list A) :
  List.length (Py.sorted key l) = List.length l.
Proof. symmetry. apply Permutation_length, sorted_perm. Qed.

Lemma insert_sorted (x : A) (l : list A) :
  StronglySorted (key_le key) l -> StronglySorted (key_le key) (Py.insert key x l).
Proof.
  induction 1 as [|y l Hs IH Hall]; simpl.
  - repeat constructor.
  - destruct (Z.leb_spec (key x) (key y)) as [Hxy|Hxy].
    + constructor; [now constructor|].
      constructor; [exact Hxy|].
      eapply Forall_impl; [|exact Hall].
      intros z Hz. unfold key_le in *. lia.
    + constructor; [exact IH|].
      eapply Permutation_Forall; [apply insert_perm|].
      constructor; [unfold key_le; lia | exact Hall].
Qed.

Lemma sorted_sorted (l : list A) : StronglySorted (key_le key) (Py.sorted key l).
Proof.
  induction l as [|x l IH]; simpl; [constructor | now apply insert_sorted].
Qed.

(** The sort is stable: the items of any one key are in the order they had
    before the sort. *)
Lemma insert_stable (k : Z) (x : A) (l : list A) :
  filter (fun y => key y =? k) (Py.insert key x l)
  = filter (fun y => key y =? k) (x :: l).
Proof.
  induction l as [|y l IH]; [reflexivity|].
  cbn [Py.insert]. destruct (Z.leb_spec (key x) (key y)) as [Hxy|Hxy];
    [reflexivity|].
  cbn [filter] in *. rewrite IH.
  destruct (Z.eqb_spec (key x) k), (Z.eqb_spec (key y) k);
    try reflexivity. lia.
Qed.

Lemma sorted_stable (k : Z) (l : list A) :
  filter (fun y => key y =? k) (Py.sorted key l)
  = filter (fun y => key y =? k) l.
Proof.
  induction l as [|x l IH]; [reflexivity|].
  cbn [Py.sorted]. rewrite insert_stable. cbn [filter]. now rewrite IH.
Qed.

(** Sorting a sorted list changes nothing. *)
Lemma sorted_id (l : list A) :
  StronglySorted (key_le key) l -> Py.sorted key l = l.
Proof.
  induction 1 as [|x l Hs IH Hall]; simpl; [reflexivity|].
  rewrite IH. destruct l as [|y l]; simpl; [reflexivity|].
  inversion Hall as [|? ? Hxy _]; subst.
  unfold key_le in Hxy.
  destruct (Z.leb_spec (key x) (key y)); [reflexivity | lia].
Qed.

Lemma sorted_idem (l : list A) :
  Py.sorted key (Py.sorted key l) = Py.sorted key l.
Proof. apply sorted_id, sorted_sorted. Qed.

(** On a sorted list [min] finds the first item. *)
Lemma min_from_sorted (x : A) (l : list A) :
  Forall (key_le key x) l -> Py.min_from key x l = x.
Proof.
  induction 1 as [|y l Hxy _ IH]; simpl; [reflexivity|].
  unfold key_le in Hxy.
  destruct (Z.ltb_spec (key y) (key x)); [lia | exact IH].
Qed.

(** On a sorted list [max] finds an item with the key of the last one. *)
Lemma max_from_sorted (x : A) (l : list A) :
  StronglySorted (key_le key) (x :: l) ->
  key (Py.max_from key x l) = key (last l x).
Proof.
  revert x. induction l as [|y l IH]; intros x Hs; [reflexivity|].
  rewrite last_cons. cbn [Py.max_from].
  inversion Hs as [|? ? Hl Hall]; subst.
  inversion Hall as [|? ? Hxy Hall']; subst. unfold key_le in Hxy.
  destruct (Z.ltb_spec (key x) (key y)) as [Hlt|Hge].
  - apply IH, Hl.
  - assert (Hx : StronglySorted (key_le key) (x :: l)).
    { inversion Hl; subst. now constructor. }
    rewrite (IH x Hx). destruct l as [|z l]; [simpl; lia|].
    now rewrite !last_cons.
Qed.
End SortFacts.

Section IndexFacts.
Context {A : Type}.

Lemma index_nonneg (l : list A) (j : Z) (x : A) :
  0 <= j -> nth_error l (Z.to_nat j) = Some x -> Py.index l j = Ok x.
Proof.
  intros Hj Hn. unfold Py.index.
  assert (Hlt : (Z.to_nat j < List.length l)%nat).
  { apply nth_error_Some. congruence. }
  destruct (Z.ltb_spec j 0); [lia|].
  destruct (Z.ltb_spec j 0); [lia|].
  destruct (Z.leb_spec (Z.of_nat (List.length l)) j); [lia|].
  simpl. now rewrite Hn.
Qed.

Lemma index_middle (pre : list A) (x : A) (rest : list A) :
  Py.index (pre ++ x :: rest) (Z.of_nat (List.length pre)) = Ok x.
Proof.
  apply index_nonneg; [lia|].
  rewrite Nat2Z.id, nth_error_app2 by lia.
  now rewrite Nat.sub_diag.
Qed.

(** [l[-1]] is the last item. *)
Lemma index_last (x : A) (l : list A) :
  Py.index (x :: l) (-1) = Ok (last l x).
Proof.
  assert (Hne : x :: l <> []) by discriminate.
  pose proof (app_removelast_last x Hne) as Heq.
  rewrite last_cons in Heq.
  assert (Hlen : List.length (x :: l) = S (List.length (removelast (x :: l)))).
  { rewrite Heq at 1. rewrite length_app. simpl. lia. }
  unfold Py.index. rewrite Hlen.
  destruct (Z.ltb_spec (-1) 0); [|lia].
  set (j := -1 + Z.of_nat (S (List.length (removelast (x :: l))))).
  destruct (Z.ltb_spec j 0); [lia|].
  destruct (Z.leb_spec (Z.of_nat (S (List.length (removelast (x :: l))))) j);
    [lia|].
  simpl orb. cbv iota.
  replace (Z.to_nat j) with (List.length (removelast (x :: l))) by lia.
  rewrite Heq at 1.
  rewrite nth_error_app2 by lia. now rewrite Nat.sub_diag.
Qed.

Lemma index_empty (i : Z) : Py.index (@nil A) i = Raise IndexError.
Proof.
  unfold Py.index. simpl.
  destruct (Z.ltb_spec i 0).
  - destruct (Z.ltb_spec (i + 0) 0); [reflexivity | lia].
  - destruct (Z.ltb_spec i 0); [lia|].
    destruct (Z.leb_spec 0 i); [reflexivity | lia].
Qed.
End IndexFacts.

Lemma range_nonpos (n : Z) : n <= 0 -> Py.range n = [].
Proof.
  intros H. unfold Py.range. now replace (Z.to_nat n) with 0%nat by lia.
Qed.

Lemma range_length (n : Z) : List.length (Py.range n) = Z.to_nat n.
Proof. unfold Py.range. now rewrite length_map, length_seq. Qed.

Lemma range_In (n d : Z) : In d (Py.range n) <-> 0 <= d < n.
Proof.
  unfold Py.range. rewrite in_map_iff. split.
  - intros (k & <- & Hk). apply in_seq in Hk. lia.
  - intros H. exists (Z.to_nat d). split; [lia|]. apply in_seq. lia.
Qed.

(** A loop that appends one item per step appends their list. *)
Lemma for_each_append {A B} (f : A -> B)
  (body : list B -> A -> result (list B)) (items : list A) (acc : list B) :
  (forall acc' d, In d items -> body acc' d = Ok (acc' ++ [f d])) ->
  for_each body items acc = Ok (acc ++ map f items).
Proof.
  revert acc. induction items as [|d items IH]; intros acc Hbody; simpl.
  - now rewrite app_nil_r.
  - rewrite Hbody by now left. simpl.
    rewrite IH by (intros; apply Hbody; now right).
    now rewrite <- app_assoc.
Qed.

(** ** Facts about the daily expansion *)

Lemma valid_range (d : Z) :
  Datetime.valid d = true <-> 1 <= d <= Datetime.max_ordinal.
Proof.
  unfold Datetime.valid. rewrite andb_true_iff, !Z.leb_le. tauto.
Qed.

(** The date of an event is a day of the library's range. *)
Lemma date_range (e : Dividend) : 1 <= date e <= Datetime.max_ordinal.
Proof. apply valid_range, date_valid. Qed.

Lemma date_mkDividend (d : Z) (a : option Q) :
  1 <= d <= Datetime.max_ordinal -> date (mkDividend d a) = d.
Proof.
  intros H. unfold mkDividend. cbn [date]. unfold in_range.
  now rewrite (proj2 (valid_range d) H).
Qed.

Lemma dividend_mkDividend (d : Z) (a : option Q) :
  dividend (mkDividend d a) = a.
Proof. reflexivity. Qed.

Lemma add_days_ok (dt d : Z) :
  1 <= dt + d <= Datetime.max_ordinal -> add_days dt d = Ok (dt + d).
Proof.
  intros H. unfold add_days. now rewrite (proj2 (valid_range (dt + d)) H).
Qed.

Lemma add_days_overflow (dt d : Z) :
  Datetime.max_ordinal < dt + d -> add_days dt d = Raise OverflowError.
Proof.
  intros H. unfold add_days.
  destruct (Datetime.valid (dt + d)) eqn:E; [|reflexivity].
  apply valid_range in E. lia.
Qed.

(** One inner loop appends the records of one period, when the days of the
    period are days of the library's range. *)
Lemma spread_period (src : Dividend) (g : Z) (days : list Dividend) :
  has_amount src = true \/ g <= 0 ->
  date src + g <= Datetime.max_ordinal + 1 ->
  spread src g days = Ok (days ++ period src g).
Proof.
  intros H Hmax. unfold spread, period.
  destruct (Z.leb_spec g 0) as [Hg|Hg].
  - rewrite range_nonpos by exact Hg. simpl. now rewrite app_nil_r.
  - destruct H as [H|H]; [|lia].
    unfold has_amount in H. destruct (dividend src) as [a|] eqn:Ha; [|discriminate].
    apply for_each_append. intros acc d Hd. apply range_In in Hd.
    pose proof (date_range src).
    rewrite add_days_ok by lia. cbn [bind amount_div option_map].
    destruct (Z.eqb_spec g 0); [lia | reflexivity].
Qed.

(** A period has one record per day of the gap. *)
Lemma period_length (src : Dividend) (g : Z) :
  List.length (period src g) = Z.to_nat g.
Proof. unfold period. now rewrite length_map, range_length. Qed.

(** A record of a period carries the source's amount divided by the gap,
    and the gap is positive. *)
Lemma period_record (src : Dividend) (g : Z) (r : Dividend) :
  In r (period src g) ->
  0 < g
  /\ dividend r = option_map (fun a => (a / inject_Z g)%Q) (dividend src).
Proof.
  unfold period. rewrite in_map_iff. intros (d & <- & Hd).
  apply range_In in Hd. split; [lia | reflexivity].
Qed.

(** The dates of a period are the days from the source's date up to, and
    without, the day [g] days later. *)
Lemma period_dates (src : Dividend) (g : Z) (r : Dividend) :
  date src + g <= Datetime.max_ordinal + 1 ->
  In r (period src g) -> date src <= date r < date src + g.
Proof.
  intros Hmax. unfold period. rewrite in_map_iff. intros (d & <- & Hd).
  apply range_In in Hd. pose proof (date_range src).
  rewrite date_mkDividend by lia. lia.
Qed.

(** The records of a period, in order: one for each day offset [d] of
    [[0, g)], dated [d] days after the source, with the source's amount
    divided by [g]. *)
Lemma period_fields (src : Dividend) (g : Z) :
  date src + g <= Datetime.max_ordinal + 1 ->
  map (fun r => (date r, dividend r)) (period src g)
  = map (fun d => (date src + d,
                   option_map (fun a => (a / inject_Z g)%Q) (dividend src)))
        (Py.range g).
Proof.
  intros Hmax. unfold period. rewrite map_map.
  apply map_ext_in. intros d Hd. apply range_In in Hd.
  pose proof (date_range src).
  rewrite date_mkDividend by lia. reflexivity.
Qed.

(** The interpolation loop from its second item on: every step appends the
    period of the pair that ends at the item. *)
Lemma interpolate_loop (pre : list Dividend) (p : Dividend)
  (rest days : list Dividend) :
  forallb has_amount (p :: rest) = true ->
  for_each (interpolate_body (pre ++ p :: rest))
           (Py.enumerate_from (Z.of_nat (List.length pre) + 1) rest) days
  = Ok (days ++ interpolation (p :: rest)).
Proof.
  revert pre p days. induction rest as [|next rest IH]; intros pre p days Ham.
  - simpl. now rewrite app_nil_r.
  - cbn [Py.enumerate_from for_each]. unfold interpolate_body at 1.
    destruct (Z.eqb_spec (Z.of_nat (List.length pre) + 1) 0) as [E|_]; [lia|].
    replace (Z.of_nat (List.length pre) + 1 - 1)
      with (Z.of_nat (List.length pre)) by lia.
    rewrite index_middle. cbn [bind].
    simpl in Ham. apply andb_prop in Ham as [Hp Hrest].
    rewrite spread_period
      by (try (now left); unfold days_between;
          pose proof (date_range next); lia).
    cbn [bind].
    replace (pre ++ p :: next :: rest) with ((pre ++ [p]) ++ next :: rest)
      by now rewrite <- app_assoc.
    replace (Z.of_nat (List.length pre) + 1 + 1)
      with (Z.of_nat (List.length (pre ++ [p])) + 1)
      by (rewrite length_app; simpl; lia).
    rewrite IH by exact Hrest.
    unfold interpolation, pairs. simpl. now rewrite <- app_assoc.
Qed.

Lemma pairs_length (x : Dividend) (rest : list Dividend) :
  List.length (pairs (x :: rest)) = List.length rest.
Proof.
  unfold pairs. rewrite length_combine. cbn [tl List.length]. lia.
Qed.

Lemma pairs_cons (p next : Dividend) (rest : list Dividend) :
  pairs (p :: next :: rest) = (p, next) :: pairs (next :: rest).
Proof. reflexivity. Qed.

(** The averaging loop from its second item on: it adds up the gaps and
    ends on the last item. *)
Lemma avg_loop (pre : list Dividend) (p : Dividend) (rest : list Dividend)
  (s : Z) :
  for_each (avg_days_between_body (pre ++ p :: rest))
           (Py.enumerate_from (Z.of_nat (List.length pre) + 1) rest)
           (s, Some p)
  = Ok (s + fold_right Z.add 0 (map gap (pairs (p :: rest))),
        Some (last rest p)).
Proof.
  revert pre p s. induction rest as [|next rest IH]; intros pre p s.
  - simpl. now rewrite Z.add_0_r.
  - cbn [Py.enumerate_from for_each]. unfold avg_days_between_body at 1.
    replace (pre ++ p :: next :: rest) with ((pre ++ [p]) ++ next :: rest)
      by now rewrite <- app_assoc.
    replace (Z.of_nat (List.length pre) + 1)
      with (Z.of_nat (List.length (pre ++ [p])))
      by (rewrite length_app; simpl; lia).
    rewrite index_middle. cbn [bind].
    rewrite IH, last_cons, pairs_cons. cbn [map fold_right].
    unfold gap at 2, days_between. cbn [fst snd].
    f_equal. f_equal. lia.
Qed.

(** What [avg_days_between] computes on a non-empty input: the sum of the
    gaps of the sorted events, divided by one less than their count. *)
Lemma avg_days_between_eq (dividends : list Dividend) (x : Dividend)
  (rest : list Dividend) :
  Py.sorted date dividends = x :: rest ->
  avg_days_between dividends
  = Py.truediv (fold_right Z.add 0 (map gap (pairs (x :: rest))))
               (Z.of_nat (List.length rest)).
Proof.
  intros Hs. unfold avg_days_between. rewrite Hs.
  unfold Py.enumerate. cbn [Py.enumerate_from for_each].
  cbn [avg_days_between_body bind].
  pose proof (avg_loop [] x rest 0) as Hloop.
  cbn [List.length app Z.of_nat Z.add] in Hloop.
  change (0 + 1) with 1. rewrite Hloop.
  cbn [bind fst]. unfold Py.len.
  replace (Z.of_nat (List.length (x :: rest)) - 1)
    with (Z.of_nat (List.length rest)) by (simpl List.length; lia).
  now destruct (Py.truediv _ _).
Qed.

(** With two events or more the average is the mean of the gaps. *)
Lemma avg_days_between_ok (dividends : list Dividend) :
  (2 <= List.length dividends)%nat ->
  avg_days_between dividends
  = Ok (mean (map gap (pairs (Py.sorted date dividends)))).
Proof.
  intros Hlen.
  destruct (Py.sorted date dividends) as [|x rest] eqn:Hs.
  - pose proof (sorted_length date dividends) as Hl. rewrite Hs in Hl.
    simpl in Hl. lia.
  - rewrite (avg_days_between_eq _ _ _ Hs).
    pose proof (sorted_length date dividends) as Hl. rewrite Hs in Hl.
    simpl in Hl. unfold Py.truediv, mean.
    destruct (Z.eqb_spec (Z.of_nat (List.length rest)) 0); [lia|].
    now rewrite length_map, pairs_length.
Qed.

(** On a sorted, non-empty list the day after the latest date is computed
    first, which raises [OverflowError] when the latest date is 9999-12-31;
    after it the two assertions of [daily_dividends] hold, whatever the
    amounts, and what is left is the two loops. *)
Lemma daily_dividends_sorted_asserts (x : Dividend) (rest : list Dividend)
  (flag : bool) :
  StronglySorted date_le (x :: rest) ->
  daily_dividends_sorted (x :: rest) flag
  = if date (last rest x) <? Datetime.max_ordinal then
      days <- for_each (interpolate_body (x :: rest))
                (Py.enumerate_from 1 rest) [] ;;
      if flag then
        avg <- avg_days_between (x :: rest) ;;
        spread (last rest x) (Py.ceil avg) days
      else Ok days
    else Raise OverflowError.
Proof.
  intros Hs. unfold daily_dividends_sorted.
  cbn [Py.min Py.max bind].
  inversion Hs as [|? ? Hs' Hall]; subst.
  rewrite (min_from_sorted date x rest Hall).
  rewrite (max_from_sorted date x rest Hs).
  pose proof (date_range (last rest x)) as Hrange.
  destruct (Z.ltb_spec (date (last rest x)) Datetime.max_ordinal) as [Hlt|Hge].
  - rewrite add_days_ok by lia. cbn [bind].
    rewrite (index_nonneg (x :: rest) 0 x) by (reflexivity || lia).
    cbn [bind fst snd]. rewrite Z.eqb_refl. cbn [assert bind].
    rewrite index_last. cbn [bind].
    rewrite add_days_ok by lia. cbn [bind].
    rewrite Z.eqb_refl. cbn [assert bind].
    unfold Py.enumerate. cbn [Py.enumerate_from for_each].
    cbn [interpolate_body Z.eqb bind]. change (0 + 1) with 1.
    reflexivity.
  - now rewrite add_days_overflow by lia.
Qed.

(** Lines 94-108 on a sorted, non-empty list of events with amounts, none
    on 9999-12-31: the loop builds the interpolation. *)
Lemma daily_dividends_sorted_eq (x : Dividend) (rest : list Dividend)
  (flag : bool) :
  StronglySorted date_le (x :: rest) ->
  forallb has_amount (x :: rest) = true ->
  date (last rest x) < Datetime.max_ordinal ->
  daily_dividends_sorted (x :: rest) flag
  = if flag then
      avg <- avg_days_between (x :: rest) ;;
      spread (last rest x) (Py.ceil avg) (interpolation (x :: rest))
    else Ok (interpolation (x :: rest)).
Proof.
  intros Hs Ham Hlast.
  rewrite (daily_dividends_sorted_asserts x rest flag Hs).
  destruct (Z.ltb_spec (date (last rest x)) Datetime.max_ordinal); [|lia].
  pose proof (interpolate_loop [] x rest [] Ham) as Hloop.
  cbn [List.length app Z.of_nat Z.add] in Hloop.
  rewrite Hloop. reflexivity.
Qed.

(** In a sorted list every consecutive pair is in order, and strictly so
    when the dates are distinct. *)
Lemma pairs_sorted (l : list Dividend) (a b : Dividend) :
  StronglySorted date_le l -> In (a, b) (pairs l) -> date a <= date b.
Proof.
  induction l as [|p [|next rest] IH]; intros Hs Hin; try contradiction.
  rewrite pairs_cons in Hin. inversion Hs as [|? ? Hs' Hall]; subst.
  destruct Hin as [Heq|Hin].
  - inversion Heq; subst. now inversion Hall.
  - now apply IH.
Qed.

Lemma pairs_distinct (l : list Dividend) (a b : Dividend) :
  NoDup (map date l) -> In (a, b) (pairs l) -> date a <> date b.
Proof.
  induction l as [|p [|next rest] IH]; intros Hnd Hin; try contradiction.
  rewrite pairs_cons in Hin. inversion Hnd as [|? ? Hni Hnd']; subst.
  destruct Hin as [Heq|Hin].
  - inversion Heq; subst. intros E. apply Hni. rewrite E. now left.
  - now apply IH.
Qed.

Lemma pairs_In (l : list Dividend) (a b : Dividend) :
  In (a, b) (pairs l) -> In a l /\ In b l.
Proof.
  unfold pairs. intros H. split.
  - eapply in_combine_l, H.
  - apply in_combine_r in H. destruct l; [contradiction | now right].
Qed.

(** The last item of a sorted list has the latest date. *)
Lemma sorted_last_latest (x : Dividend) (rest : list Dividend) :
  StronglySorted date_le (x :: rest) ->
  Forall (fun e => date e <= date (last rest x)) (x :: rest).
Proof.
  revert x. induction rest as [|y rest IH]; intros x Hs.
  - constructor; [simpl; lia | constructor].
  - rewrite last_cons. inversion Hs as [|? ? Hs' Hall]; subst.
    specialize (IH y Hs'). constructor; [|exact IH].
    inversion Hall as [|? ? Hxy _]; subst. inversion IH; subst.
    unfold date_le in Hxy. lia.
Qed.

(** Every record of the interpolation lies in the period of some pair. *)
Lemma interpolation_In (l : list Dividend) (r : Dividend) :
  In r (interpolation l) ->
  exists prev next, In (prev, next) (pairs l)
                    /\ In r (period prev (gap (prev, next))).
Proof.
  unfold interpolation. rewrite in_flat_map.
  intros ([prev next] & Hin & Hr). now exists prev, next.
Qed.

(** What [daily_dividends] does on a non-empty input whose events carry
    amounts, none on 9999-12-31. *)
Lemma daily_dividends_eq (dividends : list Dividend) (flag : bool) :
  dividends <> [] ->
  forallb has_amount dividends = true ->
  before_last_day dividends = true ->
  exists x rest,
    Py.sorted date dividends = x :: rest /\
    daily_dividends dividends flag
    = (x :: rest,
       if flag then
         avg <- avg_days_between dividends ;;
         spread (last rest x) (Py.ceil avg) (interpolation (x :: rest))
       else Ok (interpolation (x :: rest))).
Proof.
  intros Hne Ham Hbefore.
  destruct (Py.sorted date dividends) as [|x rest] eqn:Hs.
  - pose proof (sorted_length date dividends) as Hl. rewrite Hs in Hl.
    destruct dividends; [congruence | discriminate].
  - exists x, rest. split; [reflexivity|].
    unfold daily_dividends. rewrite Hs. f_equal.
    assert (Hsorted : StronglySorted date_le (x :: rest)).
    { rewrite <- Hs. apply (sorted_sorted date). }
    assert (Hin : forall e, In e (x :: rest) -> In e dividends).
    { intros e He. eapply Permutation_in; [|exact He].
      rewrite <- Hs. apply Permutation_sym, sorted_perm. }
    assert (Ham' : forallb has_amount (x :: rest) = true).
    { apply forallb_forall. intros e He.
      apply (proj1 (forallb_forall _ _) Ham), Hin, He. }
    assert (Hlast : date (last rest x) < Datetime.max_ordinal).
    { apply Z.ltb_lt.
      apply (proj1 (forallb_forall _ _) Hbefore), Hin, last_In. }
    rewrite (daily_dividends_sorted_eq x rest flag Hsorted Ham' Hlast).
    destruct flag; [|reflexivity].
    assert (Hid : Py.sorted date (x :: rest) = x :: rest).
    { rewrite <- Hs. apply sorted_idem. }
    now rewrite (avg_days_between_eq _ _ _ Hid), (avg_days_between_eq _ _ _ Hs).
Qed.

(** The average interval of events is not negative. *)
Lemma mean_gaps_nonneg (l : list Dividend) :
  StronglySorted date_le l -> (0 <= mean (map gap (pairs l)))%Q.
Proof.
  intros Hs. unfold mean.
  assert (Hsum : 0 <= fold_right Z.add 0 (map gap (pairs l))).
  { assert (Hall : forall p, In p (pairs l) -> 0 <= gap p).
    { intros [a b] Hin. pose proof (pairs_sorted l a b Hs Hin).
      unfold gap. simpl. lia. }
    induction (pairs l) as [|p ps IH]; simpl; [lia|].
    pose proof (Hall p (or_introl eq_refl)).
    assert (0 <= fold_right Z.add 0 (map gap ps)).
    { apply IH. intros q Hq. apply Hall. now right. }
    lia. }
  unfold Qdiv. apply Qmult_le_0_compat.
  - unfold Qle. simpl. lia.
  - apply Qinv_le_0_compat. unfold Qle. simpl. lia.
Qed.

(** ** Facts about the lookup *)

Lemma enumerate_from_app {A} (i : Z) (l1 l2 : list A) :
  Py.enumerate_from i (l1 ++ l2)
  = Py.enumerate_from i l1
    ++ Py.enumerate_from (i + Z.of_nat (List.length l1)) l2.
Proof.
  revert i. induction l1 as [|x l1 IH]; intros i.
  - simpl. now rewrite Z.add_0_r.
  - cbn [app Py.enumerate_from List.length]. rewrite IH.
    rewrite Nat2Z.inj_succ. do 3 f_equal. lia.
Qed.

(** The loop of the lookup passes over the events that are not after the
    date. *)
Lemma lookup_loop_skip (dividends : list Dividend) (q : datetime) (i : Z)
  (skipped : list Dividend) (items : list (Z * Dividend)) :
  Forall (fun d => date d <= q) skipped ->
  last_dividend_before_loop dividends q (Py.enumerate_from i skipped ++ items)
  = last_dividend_before_loop dividends q items.
Proof.
  intros Hall. revert i. induction Hall as [|d skipped Hd _ IH]; intros i.
  - reflexivity.
  - cbn [Py.enumerate_from app last_dividend_before_loop].
    destruct (Z.ltb_spec q (date d)); [lia | apply IH].
Qed.

Lemma sorted_front (front : list Dividend) (p : Dividend)
  (back : list Dividend) :
  StronglySorted date_le (front ++ p :: back) ->
  Forall (fun d => date d <= date p) (front ++ [p]).
Proof.
  induction front as [|x front IH]; intros Hs.
  - constructor; [lia | constructor].
  - cbn [app] in *. inversion Hs as [|? ? Hs' Hall]; subst.
    constructor; [|now apply IH].
    rewrite Forall_forall in Hall. apply (Hall p), in_elt.
Qed.

(** What the lookup returns.  When no event is after the date, nothing
    ([None]); when the first event of the sorted input is after the date,
    the last event of the sorted input; otherwise the event just before the
    first event that is after the date, which is the latest event on or
    before the date. *)
Lemma last_dividend_before_cases (dividends : list Dividend) (q : datetime) :
  (Forall (fun d => date d <= q) dividends ->
   last_dividend_before dividends q = Ok None)
  /\ (forall n back,
        Py.sorted date dividends = n :: back -> q < date n ->
        last_dividend_before dividends q = Ok (Some (last back n)))
  /\ (forall front p n back,
        Py.sorted date dividends = front ++ p :: n :: back ->
        date p <= q < date n ->
        last_dividend_before dividends q = Ok (Some p)).
Proof.
  unfold last_dividend_before, Py.enumerate. split; [|split].
  - intros Hall.
    assert (Hall' : Forall (fun d => date d <= q) (Py.sorted date dividends)).
    { eapply Permutation_Forall; [apply sorted_perm | exact Hall]. }
    rewrite <- (app_nil_r (Py.enumerate_from 0 (Py.sorted date dividends))).
    now rewrite lookup_loop_skip.
  - intros n back Hs Hq. rewrite Hs.
    cbn [Py.enumerate_from last_dividend_before_loop].
    destruct (Z.ltb_spec q (date n)); [|lia].
    change (0 - 1) with (-1). now rewrite index_last.
  - intros front p n back Hs Hq.
    assert (Hsorted : StronglySorted date_le (front ++ p :: n :: back)).
    { rewrite <- Hs. apply (sorted_sorted date). }
    rewrite Hs.
    replace (front ++ p :: n :: back) with ((front ++ [p]) ++ n :: back) at 2
      by now rewrite <- app_assoc.
    rewrite enumerate_from_app, lookup_loop_skip.
    + cbn [Py.enumerate_from last_dividend_before_loop].
      destruct (Z.ltb_spec q (date n)); [|lia].
      replace (0 + Z.of_nat (List.length (front ++ [p])) - 1)
        with (Z.of_nat (List.length front))
        by (rewrite length_app; simpl; lia).
      now rewrite index_middle.
    + eapply Forall_impl; [|apply (sorted_front front p (n :: back) Hsorted)].
      intros d Hd. simpl in Hd. lia.
Qed.

(** ** The amounts as floats *)

(** In binary64 arithmetic, which is what the program computes with, the
    quotient by 30 of the float nearest to 0.3 is the float nearest to
    0.01: the daily amount of the end-to-end property and the amount its
    test expects are equal as floats, as they are as rationals. *)
Lemma binary64_daily_amount :
  PrimFloat.eqb
    (PrimFloat.div 0x1.3333333333333p-2%float 30%float)
    0x1.47ae147ae147bp-7%float = true.
Proof. vm_compute. reflexivity. Qed.

(** ** The claims *)

(** C9: [daily_dividends] mutates its input: after any call, whatever the
    flag and whether the call returns or raises, the caller's list holds the
    same records, reordered into ascending order of date. *)
Theorem daily_dividends_sorts_caller_list (dividends : list Dividend)
  (flag : bool) :
  Permutation dividends (fst (daily_dividends dividends flag))
  /\ StronglySorted date_le (fst (daily_dividends dividends flag)).
Proof.
  unfold daily_dividends. cbn [fst]. split.
  - apply sorted_perm.
  - apply (sorted_sorted date).
Qed.

(** C1, as stated, fails: two events with distinct dates and no amount make
    the pass raise [TypeError], and two events with amounts dated
    9999-12-30 and 9999-12-31 make it raise [OverflowError], on the day
    after the latest date. *)
Lemma interpolation_counterexample :
  ~ interpolation_claim [mkDividend (ymd 2020 8 11) None;
                         mkDividend (ymd 2020 9 10) None]
  /\ ~ interpolation_claim [mkDividend (ymd 9999 12 30) (Some (3 # 10)%Q);
                            mkDividend (ymd 9999 12 31) (Some (3 # 10)%Q)].
Proof.
  split; intros H.
  - destruct H as (last_event & _ & Hrun & _).
    + simpl. lia.
    + vm_compute. repeat constructor; simpl; intuition discriminate.
    + vm_compute in Hrun. discriminate Hrun.
  - destruct H as (last_event & _ & Hrun & _).
    + simpl. lia.
    + vm_compute. repeat constructor; simpl; intuition discriminate.
    + vm_compute in Hrun. discriminate Hrun.
Qed.

(** C1, amended: for two events or more with distinct dates, each carrying
    an amount and none dated 9999-12-31, the interpolation pass run on the
    events sorted by date emits, for each consecutive pair [(prev, next)]
    in order, the records of [period prev gap]: exactly [gap] records,
    dated [prev.date + d] for the [d] of [[0, gap)], each with amount
    [prev.amount / gap]; and no record of the pass has the date of the last
    event. *)
Theorem interpolation_pass (dividends : list Dividend) :
  (2 <= List.length dividends)%nat ->
  NoDup (map date dividends) ->
  forallb has_amount dividends = true ->
  before_last_day dividends = true ->
  exists last_event,
    Py.index (Py.sorted date dividends) (-1) = Ok last_event
    /\ snd (daily_dividends dividends false)
       = Ok (interpolation (Py.sorted date dividends))
    /\ (forall prev next,
          In (prev, next) (pairs (Py.sorted date dividends)) ->
          0 < gap (prev, next)
          /\ Z.of_nat (List.length (period prev (gap (prev, next))))
             = gap (prev, next)
          /\ map (fun r => (date r, dividend r))
                 (period prev (gap (prev, next)))
             = map (fun d =>
                      (date prev + d,
                       option_map
                         (fun a => (a / inject_Z (gap (prev, next)))%Q)
                         (dividend prev)))
                   (Py.range (gap (prev, next))))
    /\ ~ In (date last_event)
            (map date (interpolation (Py.sorted date dividends))).
Proof.
  intros Hlen Hnd Ham Hbefore.
  assert (Hne : dividends <> []).
  { destruct dividends; [simpl in Hlen; lia | discriminate]. }
  destruct (daily_dividends_eq dividends false Hne Ham Hbefore)
    as (x & rest & Hs & Hrun).
  assert (Hsorted : StronglySorted date_le (x :: rest)).
  { rewrite <- Hs. apply (sorted_sorted date). }
  assert (Hnd' : NoDup (map date (x :: rest))).
  { rewrite <- Hs. eapply Permutation_NoDup; [|exact Hnd].
    apply Permutation_map, sorted_perm. }
  assert (Hgap : forall prev next, In (prev, next) (pairs (x :: rest)) ->
                                   0 < gap (prev, next)).
  { intros prev next Hin.
    pose proof (pairs_sorted _ _ _ Hsorted Hin).
    pose proof (pairs_distinct _ _ _ Hnd' Hin).
    unfold gap. simpl. lia. }
  assert (Hdates : forall prev next r,
            In r (period prev (gap (prev, next))) ->
            date prev <= date r < date next).
  { intros prev next r Hr. pose proof (date_range next).
    apply period_dates in Hr; unfold gap in *; cbn [fst snd] in *; lia. }
  rewrite Hs. exists (last rest x).
  split; [apply index_last|].
  split; [now rewrite Hrun|].
  split.
  - intros prev next Hin. specialize (Hgap _ _ Hin).
    split; [exact Hgap|]. split; [rewrite period_length; lia|].
    apply period_fields. pose proof (date_range next).
    unfold gap. cbn [fst snd]. lia.
  - rewrite in_map_iff. intros (r & Hdate & Hr).
    apply interpolation_In in Hr as (prev & next & Hin & Hr).
    apply Hdates in Hr.
    pose proof (sorted_last_latest x rest Hsorted) as Hlast.
    rewrite Forall_forall in Hlast.
    pose proof (Hlast next (proj2 (pairs_In _ _ _ Hin))). lia.
Qed.

(** C2, as stated, fails: with the default flag, two events without amount
    make the call raise [TypeError], and two events with amounts dated
    9999-12-01 and 9999-12-20 make it raise [OverflowError], on an
    extrapolated day past 9999-12-31. *)
Lemma extrapolation_counterexample :
  ~ extrapolation_claim [mkDividend (ymd 2020 8 11) None;
                         mkDividend (ymd 2020 9 10) None]
  /\ ~ extrapolation_claim [mkDividend (ymd 9999 12 1) (Some (3 # 10)%Q);
                             mkDividend (ymd 9999 12 20) (Some (3 # 10)%Q)].
Proof.
  split; intros H.
  - destruct H as (last_event & _ & Hrun); [simpl; lia|].
    match type of Hrun with
    | ?run = _ => assert (E : run = Raise TypeError)
        by (vm_compute; reflexivity)
    end.
    rewrite E in Hrun. discriminate Hrun.
  - destruct H as (last_event & _ & Hrun); [simpl; lia|].
    match type of Hrun with
    | ?run = _ => assert (E : run = Raise OverflowError)
        by (vm_compute; reflexivity)
    end.
    rewrite E in Hrun. discriminate Hrun.
Qed.

(** C2, amended: for two events or more, each carrying an amount, none
    dated 9999-12-31 and with the extrapolated days within the library's
    range, with the extrapolation flag on, which is its default, the output
    is the interpolation followed by exactly [g] more records, dated
    [last.date + d] for the [d] of [[0, g)], each with amount
    [last.amount / g], where [last] is the latest event and [g], not
    negative, is the ceiling of the average interval of the whole input:
    the mean of the gaps of the sorted events, which is what
    [avg_days_between] returns. *)
Theorem extrapolation_pass (dividends : list Dividend) :
  (2 <= List.length dividends)%nat ->
  forallb has_amount dividends = true ->
  before_last_day dividends = true ->
  extrapolation_in_range dividends = true ->
  exists last_event,
    Py.index (Py.sorted date dividends) (-1) = Ok last_event
    /\ In last_event dividends
    /\ Forall (fun e => date e <= date last_event) dividends
    /\ avg_days_between dividends
       = Ok (mean (map gap (pairs (Py.sorted date dividends))))
    /\ snd (daily_dividends dividends false)
       = Ok (interpolation (Py.sorted date dividends))
    /\ snd (daily_dividends dividends predict_future_dividend_default)
       = Ok (interpolation (Py.sorted date dividends)
             ++ period last_event (extrapolation_days dividends))
    /\ 0 <= extrapolation_days dividends
    /\ Z.of_nat (List.length
                   (period last_event (extrapolation_days dividends)))
       = extrapolation_days dividends
    /\ map (fun r => (date r, dividend r))
           (period last_event (extrapolation_days dividends))
       = map (fun d =>
                (date last_event + d,
                 option_map
                   (fun a => (a / inject_Z (extrapolation_days dividends))%Q)
                   (dividend last_event)))
             (Py.range (extrapolation_days dividends)).
Proof.
  intros Hlen Ham Hbefore Hrange.
  assert (Hne : dividends <> []).
  { destruct dividends; [simpl in Hlen; lia | discriminate]. }
  destruct (daily_dividends_eq dividends false Hne Ham Hbefore)
    as (x & rest & Hs & Hoff).
  destruct (daily_dividends_eq dividends true Hne Ham Hbefore)
    as (x' & rest' & Hs' & Hon).
  rewrite Hs in Hs'. inversion Hs'; subst x' rest'. clear Hs'.
  assert (Hsorted : StronglySorted date_le (x :: rest)).
  { rewrite <- Hs. apply (sorted_sorted date). }
  pose proof (avg_days_between_ok dividends Hlen) as Havg.
  assert (Hg : 0 <= extrapolation_days dividends).
  { unfold extrapolation_days, Py.ceil. change 0 with (Qceiling 0).
    apply Qceiling_resp_le, mean_gaps_nonneg. apply (sorted_sorted date). }
  assert (Hlast : In (last rest x) dividends).
  { eapply Permutation_in; [apply Permutation_sym, (sorted_perm date)|].
    rewrite Hs. apply last_In. }
  assert (Hmax : date (last rest x) + extrapolation_days dividends
                 <= Datetime.max_ordinal + 1).
  { apply Z.leb_le.
    exact (proj1 (forallb_forall _ _) Hrange (last rest x) Hlast). }
  exists (last rest x).
  split; [rewrite Hs; apply index_last|].
  split; [exact Hlast|].
  split.
  { eapply Permutation_Forall; [apply Permutation_sym, (sorted_perm date)|].
    rewrite Hs. now apply sorted_last_latest. }
  split; [exact Havg|].
  split; [now rewrite Hoff, Hs|].
  split.
  { unfold predict_future_dividend_default. rewrite Hon, Havg. cbn [snd bind].
    rewrite Hs. fold (extrapolation_days dividends) in *.
    change (Py.ceil (mean (map gap (pairs (x :: rest)))))
      with (Py.ceil (mean (map gap (pairs (x :: rest))))).
    replace (Py.ceil (mean (map gap (pairs (x :: rest)))))
      with (extrapolation_days dividends)
      by (unfold extrapolation_days; now rewrite Hs).
    apply spread_period; [|exact Hmax].
    left. exact (proj1 (forallb_forall _ _) Ham (last rest x) Hlast). }
  split; [exact Hg|].
  split; [rewrite period_length; lia|].
  now apply period_fields.
Qed.

(** C7: for two events or more, [avg_days_between] returns the arithmetic
    mean of the gaps, in days, between the consecutive events of the input
    sorted by date; the events at 2020-08-11, 2020-09-10 and 2020-10-10
    give 30. *)
Theorem avg_days_between_mean (dividends : list Dividend) :
  (2 <= List.length dividends)%nat ->
  avg_days_between dividends
  = Ok (mean (map gap (pairs (Py.sorted date dividends))))
  /\ exists avg,
       avg_days_between [mkDividend (ymd 2020 8 11) None;
                         mkDividend (ymd 2020 9 10) None;
                         mkDividend (ymd 2020 10 10) None] = Ok avg
       /\ (avg == 30)%Q.
Proof.
  intros Hlen. split.
  - now apply avg_days_between_ok.
  - eexists. split; [vm_compute; reflexivity | reflexivity].
Qed.

Lemma avg_days_between_mean_witness :
  avg_days_between [mkDividend (ymd 2020 10 10) None;
                    mkDividend (ymd 2020 9 10) None;
                    mkDividend (ymd 2020 8 11) None]
  = Ok (mean [30; 30]).
Proof.
  apply (avg_days_between_mean
           [mkDividend (ymd 2020 10 10) None;
            mkDividend (ymd 2020 9 10) None;
            mkDividend (ymd 2020 8 11) None]).
  simpl. lia.
Defined.

Lemma test_events_distinct : NoDup (map date test_events).
Proof.
  vm_compute. repeat constructor; simpl; intuition discriminate.
Qed.

Lemma interpolation_pass_witness :
  exists last_event,
    Py.index (Py.sorted date test_events) (-1) = Ok last_event
    /\ snd (daily_dividends test_events false)
       = Ok (interpolation (Py.sorted date test_events))
    /\ (forall prev next,
          In (prev, next) (pairs (Py.sorted date test_events)) ->
          0 < gap (prev, next)
          /\ Z.of_nat (List.length (period prev (gap (prev, next))))
             = gap (prev, next)
          /\ map (fun r => (date r, dividend r))
                 (period prev (gap (prev, next)))
             = map (fun d =>
                      (date prev + d,
                       option_map
                         (fun a => (a / inject_Z (gap (prev, next)))%Q)
                         (dividend prev)))
                   (Py.range (gap (prev, next))))
    /\ ~ In (date last_event)
            (map date (interpolation (Py.sorted date test_events))).
Proof.
  apply (interpolation_pass test_events).
  - simpl. lia.
  - exact test_events_distinct.
  - reflexivity.
  - reflexivity.
Defined.

Lemma extrapolation_pass_witness :
  extrapolation_days test_events = 30
  /\ exists last_event,
       Py.index (Py.sorted date test_events) (-1) = Ok last_event
       /\ In last_event test_events
       /\ Forall (fun e => date e <= date last_event) test_events
       /\ avg_days_between test_events
          = Ok (mean (map gap (pairs (Py.sorted date test_events))))
       /\ snd (daily_dividends test_events false)
          = Ok (interpolation (Py.sorted date test_events))
       /\ snd (daily_dividends test_events predict_future_dividend_default)
          = Ok (interpolation (Py.sorted date test_events)
                ++ period last_event (extrapolation_days test_events))
       /\ 0 <= extrapolation_days test_events
       /\ Z.of_nat (List.length
                      (period last_event (extrapolation_days test_events)))
          = extrapolation_days test_events
       /\ map (fun r => (date r, dividend r))
              (period last_event (extrapolation_days test_events))
          = map (fun d =>
                   (date last_event + d,
                    option_map
                      (fun a =>
                         (a / inject_Z (extrapolation_days test_events))%Q)
                      (dividend last_event)))
                (Py.range (extrapolation_days test_events)).
Proof.
  split; [vm_compute; reflexivity|].
  apply (extrapolation_pass test_events).
  - simpl. lia.
  - reflexivity.
  - reflexivity.
  - vm_compute. reflexivity.
Defined.





(** C8: on the events at 2020-10-18, 2020-10-20 and 2020-10-22 the lookup
    returns the event at 2020-10-20 for the date 2020-10-21, as the
    specification says; for the date 2020-10-23, which is after every event,
    it runs off its end and returns [None], although the event at 2020-10-22
    is the last one before that date; for 2020-10-20 it returns the event at
    2020-10-20 itself, and for 2020-10-17 the event at 2020-10-22. *)
Theorem last_dividend_before_runs :
  last_dividend_before lookup_events (ymd 2020 10 21)
  = Ok (Some (mkDividend (ymd 2020 10 20) None))
  /\ last_dividend_before lookup_events (ymd 2020 10 23) = Ok None
  /\ last_dividend_before lookup_events (ymd 2020 10 20)
     = Ok (Some (mkDividend (ymd 2020 10 20) None))
  /\ last_dividend_before lookup_events (ymd 2020 10 17)
     = Ok (Some (mkDividend (ymd 2020 10 22) None)).
Proof. repeat split; vm_compute; reflexivity. Qed.

(** C4, as stated, fails on a single event: the averaging raises
    [ZeroDivisionError]. *)
Lemma insufficient_data_counterexample :
  ~ insufficient_data_claim [mkDividend (ymd 2020 8 11) (Some (3 # 10)%Q)].
Proof.
  intros [Havg _]. vm_compute in Havg. discriminate Havg.
Qed.

(** C4, amended: on an input with fewer than two events nothing raises
    [InsufficientDataError].  On no event, [avg_days_between] returns zero
    and [daily_dividends] raises [ValueError]; on one event,
    [avg_days_between] raises [ZeroDivisionError], and [daily_dividends]
    raises [ZeroDivisionError] with the extrapolation on and returns no
    record with it off, unless the event is dated 9999-12-31, when it
    raises [OverflowError] with either flag. *)
Theorem fewer_than_two_events (dividends : list Dividend) :
  (List.length dividends < 2)%nat ->
  (dividends = []
   /\ avg_days_between dividends = Ok 0%Q
   /\ forall flag, daily_dividends dividends flag = ([], Raise ValueError))
  \/ (exists e,
        dividends = [e]
        /\ avg_days_between dividends = Raise ZeroDivisionError
        /\ forall flag,
             daily_dividends dividends flag
             = ([e], if date e <? Datetime.max_ordinal then
                       if flag then Raise ZeroDivisionError else Ok []
                     else Raise OverflowError)).
Proof.
  intros Hlen. destruct dividends as [|e [|e' rest]].
  - left. repeat split.
  - right. exists e.
    assert (Hs : StronglySorted date_le [e]) by (constructor; constructor).
    split; [reflexivity|]. split; [reflexivity|].
    intros flag. unfold daily_dividends. cbn [Py.sorted Py.insert].
    rewrite (daily_dividends_sorted_asserts e [] flag Hs). cbn [last].
    destruct (date e <? Datetime.max_ordinal); [|reflexivity].
    now destruct flag.
  - simpl in Hlen. lia.
Qed.

Lemma fewer_than_two_events_witness :
  ((@nil Dividend = []
    /\ avg_days_between [] = Ok 0%Q
    /\ forall flag, daily_dividends [] flag = ([], Raise ValueError))
   \/ (exists e,
         [] = [e]
         /\ avg_days_between [] = Raise ZeroDivisionError
         /\ forall flag,
              daily_dividends [] flag
              = ([e], if date e <? Datetime.max_ordinal then
                        if flag then Raise ZeroDivisionError else Ok []
                      else Raise OverflowError)))
  /\ ((([mkDividend (ymd 2020 8 11) (Some (3 # 10)%Q)] = []
        /\ avg_days_between [mkDividend (ymd 2020 8 11) (Some (3 # 10)%Q)]
           = Ok 0%Q
        /\ forall flag,
             daily_dividends [mkDividend (ymd 2020 8 11) (Some (3 # 10)%Q)]
               flag
             = ([], Raise ValueError))
       \/ (exists e,
             [mkDividend (ymd 2020 8 11) (Some (3 # 10)%Q)] = [e]
             /\ avg_days_between
                  [mkDividend (ymd 2020 8 11) (Some (3 # 10)%Q)]
                = Raise ZeroDivisionError
             /\ forall flag,
                  daily_dividends
                    [mkDividend (ymd 2020 8 11) (Some (3 # 10)%Q)] flag
                  = ([e], if date e <? Datetime.max_ordinal then
                            if flag then Raise ZeroDivisionError else Ok []
                          else Raise OverflowError)))
      /\ daily_dividends [mkDividend (ymd 9999 12 31) (Some (3 # 10)%Q)]
           true
         = ([mkDividend (ymd 9999 12 31) (Some (3 # 10)%Q)],
            Raise OverflowError)).
Proof.
  split; [|split].
  - apply (fewer_than_two_events []). simpl. lia.
  - apply (fewer_than_two_events
             [mkDividend (ymd 2020 8 11) (Some (3 # 10)%Q)]).
    simpl. lia.
  - destruct (fewer_than_two_events
                [mkDividend (ymd 9999 12 31) (Some (3 # 10)%Q)])
      as [(Hnil & _)|(e & He & _ & Hrun)].
    + simpl. lia.
    + discriminate Hnil.
    + injection He as <-. exact (Hrun true).
Defined.

Lemma pairs_cons_interpolation (p next : Dividend) (rest : list Dividend) :
  interpolation (p :: next :: rest)
  = period p (gap (p, next)) ++ interpolation (next :: rest).
Proof. reflexivity. Qed.

(** The interpolation of a sequence splits at any of its events. *)
Lemma interpolation_app (front : list Dividend) (a : Dividend)
  (back : list Dividend) :
  interpolation (front ++ a :: back)
  = interpolation (front ++ [a]) ++ interpolation (a :: back).
Proof.
  induction front as [|x front IH]; [reflexivity|].
  destruct front as [|y front].
  - cbn [app]. rewrite !pairs_cons_interpolation.
    change (interpolation [a]) with (@nil Dividend). now rewrite app_nil_r.
  - cbn [app] in *. rewrite !pairs_cons_interpolation, IH.
    now rewrite app_assoc.
Qed.

(** C5, as stated, fails: with two events on 2020-08-11 and one on
    2020-09-10 the expansion returns records, with either flag. *)
Lemma duplicate_dates_counterexample :
  ~ duplicate_dates_claim
      [mkDividend (ymd 2020 8 11) (Some (3 # 10)%Q);
       mkDividend (ymd 2020 8 11) (Some (3 # 10)%Q);
       mkDividend (ymd 2020 9 10) (Some (3 # 10)%Q)].
Proof.
  intros (flag & e & H). destruct flag; vm_compute in H; discriminate H.
Qed.

(** C5, amended: when two consecutive events of the sorted input have the
    same date (the events carry amounts, none is dated 9999-12-31 and the
    extrapolated days stay within the library's range), the interpolation
    does not fail: it returns the records of the other pairs and none for
    that pair; with the extrapolation on the call returns as well, the same
    records followed by the extrapolated period. *)
Theorem duplicate_dates_skipped (dividends front back : list Dividend)
  (a b : Dividend) :
  forallb has_amount dividends = true ->
  before_last_day dividends = true ->
  extrapolation_in_range dividends = true ->
  Py.sorted date dividends = front ++ a :: b :: back ->
  date a = date b ->
  snd (daily_dividends dividends false)
  = Ok (interpolation (front ++ [a]) ++ interpolation (b :: back))
  /\ period a (gap (a, b)) = []
  /\ exists last_event,
       Py.index (Py.sorted date dividends) (-1) = Ok last_event
       /\ snd (daily_dividends dividends true)
          = Ok (interpolation (front ++ [a]) ++ interpolation (b :: back)
                ++ period last_event (extrapolation_days dividends)).
Proof.
  intros Ham Hbefore Hrange Hs Hdate.
  assert (Hlen : (2 <= List.length dividends)%nat).
  { rewrite <- (sorted_length date), Hs, length_app. simpl. lia. }
  assert (Hne : dividends <> []).
  { destruct dividends; [simpl in Hlen; lia | discriminate]. }
  assert (Hgap : period a (gap (a, b)) = []).
  { unfold period, gap. cbn [fst snd]. rewrite range_nonpos by lia.
    reflexivity. }
  destruct (daily_dividends_eq dividends false Hne Ham Hbefore)
    as (x & rest & Hx & Hoff).
  destruct (daily_dividends_eq dividends true Hne Ham Hbefore)
    as (x' & rest' & Hx' & Hon).
  rewrite Hx in Hx'. inversion Hx'; subst x' rest'. clear Hx'.
  assert (Hinterp : interpolation (x :: rest)
                    = interpolation (front ++ [a]) ++ interpolation (b :: back)).
  { rewrite <- Hx, Hs.
    rewrite interpolation_app, pairs_cons_interpolation, Hgap. reflexivity. }
  assert (Hlast : In (last rest x) dividends).
  { eapply Permutation_in; [apply Permutation_sym, (sorted_perm date)|].
    rewrite Hx. apply last_In. }
  split; [|split].
  - rewrite Hoff. cbn [snd]. now rewrite Hinterp.
  - exact Hgap.
  - exists (last rest x). split; [rewrite Hx; apply index_last|].
    rewrite Hon. cbn [snd]. rewrite (avg_days_between_ok dividends Hlen).
    cbn [bind]. fold (extrapolation_days dividends).
    rewrite spread_period.
    + now rewrite Hinterp, app_assoc.
    + left. exact (proj1 (forallb_forall _ _) Ham (last rest x) Hlast).
    + apply Z.leb_le.
      exact (proj1 (forallb_forall _ _) Hrange (last rest x) Hlast).
Qed.

Lemma duplicate_dates_skipped_witness :
  snd (daily_dividends
         [mkDividend (ymd 2020 8 11) (Some (3 # 10)%Q);
          mkDividend (ymd 2020 8 11) (Some (3 # 10)%Q);
          mkDividend (ymd 2020 9 10) (Some (3 # 10)%Q)] false)
  = Ok (interpolation ([] ++ [mkDividend (ymd 2020 8 11) (Some (3 # 10)%Q)])
        ++ interpolation [mkDividend (ymd 2020 8 11) (Some (3 # 10)%Q);
                          mkDividend (ymd 2020 9 10) (Some (3 # 10)%Q)])
  /\ period (mkDividend (ymd 2020 8 11) (Some (3 # 10)%Q))
            (gap (mkDividend (ymd 2020 8 11) (Some (3 # 10)%Q),
                  mkDividend (ymd 2020 8 11) (Some (3 # 10)%Q))) = []
  /\ exists last_event,
       Py.index
         (Py.sorted date
            [mkDividend (ymd 2020 8 11) (Some (3 # 10)%Q);
             mkDividend (ymd 2020 8 11) (Some (3 # 10)%Q);
             mkDividend (ymd 2020 9 10) (Some (3 # 10)%Q)]) (-1)
       = Ok last_event
       /\ snd (daily_dividends
                 [mkDividend (ymd 2020 8 11) (Some (3 # 10)%Q);
                  mkDividend (ymd 2020 8 11) (Some (3 # 10)%Q);
                  mkDividend (ymd 2020 9 10) (Some (3 # 10)%Q)] true)
          = Ok (interpolation
                  ([] ++ [mkDividend (ymd 2020 8 11) (Some (3 # 10)%Q)])
                ++ interpolation
                     [mkDividend (ymd 2020 8 11) (Some (3 # 10)%Q);
                      mkDividend (ymd 2020 9 10) (Some (3 # 10)%Q)]
                ++ period last_event
                     (extrapolation_days
                        [mkDividend (ymd 2020 8 11) (Some (3 # 10)%Q);
                         mkDividend (ymd 2020 8 11) (Some (3 # 10)%Q);
                         mkDividend (ymd 2020 9 10) (Some (3 # 10)%Q)])).
Proof.
  apply (duplicate_dates_skipped
           [mkDividend (ymd 2020 8 11) (Some (3 # 10)%Q);
            mkDividend (ymd 2020 8 11) (Some (3 # 10)%Q);
            mkDividend (ymd 2020 9 10) (Some (3 # 10)%Q)]
           []
           [mkDividend (ymd 2020 9 10) (Some (3 # 10)%Q)]).
  - reflexivity.
  - reflexivity.
  - vm_compute. reflexivity.
  - vm_compute. reflexivity.
  - reflexivity.
Defined.

(** The loop of [read_src_file] collects the events of the rows in the order
    of the rows. *)
Lemma read_loop (strptime : string -> result datetime)
  (float_of_str : string -> result Q) (rows : list row_dict)
  (acc : list Dividend) :
  for_each (fun dividends div =>
              d <- Dividend_kwargs strptime float_of_str div ;;
              Ok (dividends ++ [d])) rows acc
  = (es <- events_in_row_order strptime float_of_str rows ;; Ok (acc ++ es)).
Proof.
  revert acc. induction rows as [|r rows IH]; intros acc.
  - simpl. now rewrite app_nil_r.
  - cbn [for_each events_in_row_order].
    destruct (Dividend_kwargs strptime float_of_str r) as [e|err];
      [|reflexivity].
    cbn [bind]. rewrite IH.
    destruct (events_in_row_order strptime float_of_str rows) as [es|err];
      [|reflexivity].
    cbn [bind]. now rewrite <- app_assoc.
Qed.

(** C6, as stated, fails: the parser returns the events of
    [unordered_file] with the event of the later row first. *)
Lemma parser_order_counterexample :
  ~ parser_keeps_row_order Text.strptime Text.float_of_str unordered_file.
Proof.
  intros (header & data & Hfile & Hread).
  inversion Hfile; subst header data.
  vm_compute in Hread. discriminate Hread.
Qed.

(** C6, amended: the parser skips exactly the header row (the first row,
    when it is not blank) and produces the events of the rows after it
    sorted by date, ascending, rows of one date in the order of the rows; it
    sorts the events itself.  When a row does not convert, the parser raises
    what the conversion of the first such row raises. *)
Theorem read_src_file_sorts (strptime : string -> result datetime)
  (float_of_str : string -> result Q) (header : list string)
  (data : list (list string)) :
  header <> [] ->
  read_src_file strptime float_of_str (header :: data)
  = (events <- events_in_row_order strptime float_of_str (csv_file data) ;;
     Ok (Py.sorted date events))
  /\ forall events,
       events_in_row_order strptime float_of_str (csv_file data) = Ok events ->
       exists out,
         read_src_file strptime float_of_str (header :: data) = Ok out
         /\ Permutation events out
         /\ StronglySorted date_le out
         /\ forall day,
              filter (fun e => date e =? day) out
              = filter (fun e => date e =? day) events.
Proof.
  intros Hheader.
  assert (Heq : read_src_file strptime float_of_str (header :: data)
                = (events <- events_in_row_order strptime float_of_str
                               (csv_file data) ;;
                   Ok (Py.sorted date events))).
  { unfold read_src_file. cbn [csv_file].
    destruct header as [|d [|v rest]]; [congruence | |];
      cbn [DictReader_row]; rewrite read_loop;
      destruct (events_in_row_order strptime float_of_str (csv_file data));
      reflexivity. }
  split; [exact Heq|].
  intros events Hev. exists (Py.sorted date events). repeat split.
  - rewrite Heq, Hev. reflexivity.
  - apply sorted_perm.
  - apply (sorted_sorted date).
  - intros day. apply (sorted_stable date).
Qed.

Lemma read_src_file_sorts_witness :
  read_src_file Text.strptime Text.float_of_str unordered_file
  = Ok [mkDividend (ymd 2020 9 10) (Some (3 # 10)%Q);
        mkDividend (ymd 2020 10 10) (Some (3 # 10)%Q)].
Proof.
  pose proof (read_src_file_sorts Text.strptime Text.float_of_str
                ["Date"; "Dividends"]%string
                [["2020-10-10"; "0.3"]; ["2020-09-10"; "0.3"]]%string) as H.
  destruct H as [Heq _]; [discriminate|].
  unfold unordered_file. rewrite Heq. vm_compute. reflexivity.
Defined.

(** C3, as stated, fails: the 90 records do not reach 2020-11-09; there are
    91 calendar days from 2020-08-11 through 2020-11-09. *)
Lemma end_to_end_counterexample :
  ~ end_to_end spec_events (ymd 2020 11 9).
Proof.
  intros (days & Hrun & _ & Hcount).
  vm_compute in Hrun. inversion Hrun; subst days. clear Hrun.
  vm_compute in Hcount. discriminate Hcount.
Qed.

(** C3, amended: for the three events (2020-08-11, 0.3), (2020-09-10, 0.3),
    (2020-10-10, 0.3), in the order of the specification and in the order of
    the program's test, the expansion with the extrapolation on yields
    exactly 90 records: as an unordered collection, one record of amount
    0.01 for each calendar day from 2020-08-11 through 2020-11-08, the day
    before 2020-11-09.  The amounts, 0.3 / 30 and 0.01, are equal as
    rationals and as binary64 floats. *)
Theorem end_to_end_90_days :
  end_to_end spec_events (ymd 2020 11 8)
  /\ end_to_end test_events (ymd 2020 11 8)
  /\ ymd 2020 11 8 + 1 = ymd 2020 11 9
  /\ List.length (calendar_days (ymd 2020 8 11) (ymd 2020 11 8)) = 90%nat
  /\ PrimFloat.eqb
       (PrimFloat.div 0x1.3333333333333p-2%float 30%float)
       0x1.47ae147ae147bp-7%float = true.
Proof.
  split; [|split; [|split; [|split]]].
  - eexists. split; [vm_compute; reflexivity|].
    split; vm_compute; reflexivity.
  - eexists. split; [vm_compute; reflexivity|].
    split; vm_compute; reflexivity.
  - vm_compute. reflexivity.
  - vm_compute. reflexivity.
  - exact binary64_daily_amount.
Qed.

(** ** Further properties: the lookup *)

Lemma sorted_suffix (front back : list Dividend) :
  StronglySorted date_le (front ++ back) -> StronglySorted date_le back.
Proof.
  induction front as [|x front IH]; intros Hs; [exact Hs|].
  cbn [app] in Hs. inversion Hs; subst. now apply IH.
Qed.

(** A sorted list with an event on or before a date and an event after it
    has two consecutive events around the date. *)
Lemma sorted_split (l : list Dividend) (q : datetime) :
  StronglySorted date_le l ->
  (exists e, In e l /\ date e <= q) ->
  (exists e, In e l /\ q < date e) ->
  exists front p n back,
    l = front ++ p :: n :: back /\ date p <= q < date n.
Proof.
  induction l as [|x [|y rest] IH]; intros Hs (lo & Hlo & Hloq) (hi & Hhi & Hhiq).
  - contradiction.
  - destruct Hlo as [<-|[]]. destruct Hhi as [<-|[]]. lia.
  - inversion Hs as [|? ? Hs' Hall]; subst. rewrite Forall_forall in Hall.
    assert (Hx : date x <= q).
    { destruct Hlo as [<-|Hlo]; [exact Hloq|].
      specialize (Hall lo Hlo). unfold date_le in Hall. lia. }
    destruct (Z.ltb_spec q (date y)) as [Hy|Hy].
    + exists [], x, y, rest. split; [reflexivity | lia].
    + destruct IH as (front & p & n & back & Heq & Hpn).
      * exact Hs'.
      * exists y. split; [now left | exact Hy].
      * exists hi. split; [|exact Hhiq].
        destruct Hhi as [<-|Hhi]; [lia | exact Hhi].
      * exists (x :: front), p, n, back. split; [|exact Hpn].
        cbn [app]. now rewrite <- Heq.
Qed.

(** X1: the lookup never raises, and it returns nothing exactly when no
    event is dated after the date (in particular on no events). *)
Theorem last_dividend_before_total (dividends : list Dividend)
  (q : datetime) :
  exists r,
    last_dividend_before dividends q = Ok r
    /\ (r = None <-> Forall (fun d => date d <= q) dividends).
Proof.
  destruct (last_dividend_before_cases dividends q) as (Hnone & Hwrap & Hmid).
  destruct (forallb (fun d => date d <=? q) dividends) eqn:Hall.
  - assert (HF : Forall (fun d => date d <= q) dividends).
    { apply Forall_forall. intros d Hd.
      apply (proj1 (forallb_forall _ _) Hall) in Hd. lia. }
    exists None. split; [now apply Hnone | tauto].
  - assert (Hex : exists e, In e dividends /\ q < date e).
    { destruct (existsb (fun d => q <? date d) dividends) eqn:Hx.
      - apply existsb_exists in Hx as (e & He & Hq). exists e. split; [exact He | lia].
      - exfalso. assert (forallb (fun d => date d <=? q) dividends = true);
          [|congruence].
        apply forallb_forall. intros d Hd.
        destruct (Z.leb_spec (date d) q); [reflexivity|].
        assert (existsb (fun d => q <? date d) dividends = true); [|congruence].
        apply existsb_exists. exists d. split; [exact Hd | lia]. }
    assert (HnF : ~ Forall (fun d => date d <= q) dividends).
    { intros HF. rewrite Forall_forall in HF.
      destruct Hex as (e & He & Hq). specialize (HF e He). simpl in HF. lia. }
    destruct Hex as (hi & Hhi & Hhiq).
    destruct (Py.sorted date dividends) as [|x rest] eqn:Hs.
    { apply (Permutation_in _ (sorted_perm date dividends)) in Hhi.
      rewrite Hs in Hhi. contradiction. }
    destruct (Z.ltb_spec q (date x)) as [Hx|Hx].
    + exists (Some (last rest x)). split; [now apply Hwrap|].
      split; [discriminate | intros HF; contradiction].
    + destruct (sorted_split (x :: rest) q) as (front & p & n & back & Heq & Hpn).
      * rewrite <- Hs. apply (sorted_sorted date).
      * exists x. split; [now left | exact Hx].
      * exists hi. split; [|exact Hhiq]. rewrite <- Hs.
        apply (Permutation_in _ (sorted_perm date dividends)), Hhi.
      * exists (Some p). split; [now apply (Hmid front p n back)|].
        split; [discriminate | intros HF; contradiction].
Qed.

(** X2: when some event is dated on or before the date and some event
    after it, the lookup returns an event of the input dated on or before
    the date, and no event on or before the date is later than it: the
    latest event on or before the date (not strictly before it). *)
Theorem last_dividend_before_latest (dividends : list Dividend)
  (q : datetime) :
  (exists e, In e dividends /\ date e <= q) ->
  (exists e, In e dividends /\ q < date e) ->
  exists p,
    last_dividend_before dividends q = Ok (Some p)
    /\ In p dividends
    /\ date p <= q
    /\ forall e, In e dividends -> date e <= q -> date e <= date p.
Proof.
  intros (lo & Hlo & Hloq) (hi & Hhi & Hhiq).
  destruct (last_dividend_before_cases dividends q) as (_ & _ & Hmid).
  pose proof (sorted_perm date dividends) as Hperm.
  assert (Hs : StronglySorted date_le (Py.sorted date dividends))
    by apply (sorted_sorted date).
  destruct (sorted_split (Py.sorted date dividends) q Hs)
    as (front & p & n & back & Heq & Hpn).
  - exists lo. split; [eapply Permutation_in; eassumption | exact Hloq].
  - exists hi. split; [eapply Permutation_in; eassumption | exact Hhiq].
  - exists p. split; [now apply (Hmid front p n back)|].
    split.
    { apply (Permutation_in _ (Permutation_sym Hperm)).
      rewrite Heq. apply in_elt. }
    split; [lia|].
    intros e He Heq'. apply (Permutation_in _ Hperm) in He.
    rewrite Heq in He, Hs.
    apply in_app_or in He as [He|He].
    + pose proof (sorted_front front p (n :: back) Hs) as Hfront.
      rewrite Forall_forall in Hfront. apply Hfront, in_or_app. now left.
    + destruct He as [<-|He]; [lia|].
      apply sorted_suffix in Hs. inversion Hs as [|? ? Hs' _]; subst.
      assert (Hn : date n <= date e).
      { destruct He as [<-|He]; [lia|].
        inversion Hs' as [|? ? _ Hall]; subst.
        rewrite Forall_forall in Hall. exact (Hall e He). }
      lia.
Qed.

Lemma last_dividend_before_latest_witness :
  exists p,
    last_dividend_before lookup_events (ymd 2020 10 21) = Ok (Some p)
    /\ In p lookup_events
    /\ date p <= ymd 2020 10 21
    /\ forall e, In e lookup_events -> date e <= ymd 2020 10 21 ->
                 date e <= date p.
Proof.
  apply (last_dividend_before_latest lookup_events (ymd 2020 10 21)).
  - exists (mkDividend (ymd 2020 10 18) None).
    split; [now left | vm_compute; discriminate].
  - exists (mkDividend (ymd 2020 10 22) None).
    split; [right; right; now left | vm_compute; reflexivity].
Defined.

(** X3: when every event is dated after the date, the lookup does not
    return nothing: it returns an event of the latest date (the index
    before the first one wraps around to the end of the list). *)
Theorem last_dividend_before_wraps (dividends : list Dividend)
  (q : datetime) :
  dividends <> [] ->
  Forall (fun d => q < date d) dividends ->
  exists p,
    last_dividend_before dividends q = Ok (Some p)
    /\ In p dividends
    /\ Forall (fun d => date d <= date p) dividends.
Proof.
  intros Hne Hall.
  destruct (last_dividend_before_cases dividends q) as (_ & Hwrap & _).
  pose proof (sorted_perm date dividends) as Hperm.
  destruct (Py.sorted date dividends) as [|x rest] eqn:Hs.
  { apply Permutation_sym, Permutation_nil in Hperm. contradiction. }
  assert (Hsorted : StronglySorted date_le (x :: rest)).
  { rewrite <- Hs. apply (sorted_sorted date). }
  exists (last rest x). split; [|split].
  - apply Hwrap; [reflexivity|].
    rewrite Forall_forall in Hall. apply Hall.
    apply (Permutation_in _ (Permutation_sym Hperm)). now left.
  - apply (Permutation_in _ (Permutation_sym Hperm)), last_In.
  - eapply Permutation_Forall; [apply Permutation_sym, Hperm|].
    now apply sorted_last_latest.
Qed.

Lemma last_dividend_before_wraps_witness :
  exists p,
    last_dividend_before lookup_events (ymd 2020 10 17) = Ok (Some p)
    /\ In p lookup_events
    /\ Forall (fun d => date d <= date p) lookup_events.
Proof.
  apply (last_dividend_before_wraps lookup_events (ymd 2020 10 17)).
  - discriminate.
  - repeat constructor.
Defined.

(** ** Further properties: the average interval *)

(** The gaps of a sequence add up to the distance from its first date to
    its last. *)
Lemma gaps_telescope (x : Dividend) (rest : list Dividend) :
  fold_right Z.add 0 (map gap (pairs (x :: rest)))
  = date (last rest x) - date x.
Proof.
  revert x. induction rest as [|y rest IH]; intros x.
  - simpl. lia.
  - rewrite pairs_cons, last_cons. cbn [map fold_right].
    rewrite IH. unfold gap. cbn [fst snd]. lia.
Qed.

(** The ends of the sorted input are events of the earliest and of the
    latest date. *)
Lemma sorted_ends (dividends : list Dividend) (x : Dividend)
  (rest : list Dividend) :
  Py.sorted date dividends = x :: rest ->
  In x dividends /\ In (last rest x) dividends
  /\ Forall (fun e => date x <= date e <= date (last rest x)) dividends.
Proof.
  intros Hs. pose proof (sorted_perm date dividends) as Hperm.
  rewrite Hs in Hperm.
  assert (Hsorted : StronglySorted date_le (x :: rest)).
  { rewrite <- Hs. apply (sorted_sorted date). }
  split; [|split].
  - apply (Permutation_in _ (Permutation_sym Hperm)). now left.
  - apply (Permutation_in _ (Permutation_sym Hperm)), last_In.
  - eapply Permutation_Forall; [apply Permutation_sym, Hperm|].
    pose proof (sorted_last_latest x rest Hsorted) as Hlast.
    inversion Hsorted as [|? ? _ Hall]; subst.
    rewrite Forall_forall in *. intros e He. split.
    + destruct He as [<-|He]; [lia | exact (Hall e He)].
    + exact (Hlast e He).
Qed.

(** X4: for two events or more the average interval is the distance in
    days from the earliest date to the latest, divided by one less than the
    number of events: it depends on the events between only through their
    count. *)
Theorem avg_days_between_span (dividends : list Dividend) :
  (2 <= List.length dividends)%nat ->
  exists lo hi,
    In lo dividends /\ In hi dividends
    /\ Forall (fun e => date lo <= date e <= date hi) dividends
    /\ avg_days_between dividends
       = Ok (inject_Z (date hi - date lo)
             / inject_Z (Z.of_nat (List.length dividends) - 1))%Q.
Proof.
  intros Hlen.
  destruct (Py.sorted date dividends) as [|x rest] eqn:Hs.
  { pose proof (sorted_length date dividends) as Hl. rewrite Hs in Hl.
    simpl in Hl. lia. }
  destruct (sorted_ends dividends x rest Hs) as (Hx & Hlast & Hall).
  exists x, (last rest x). repeat split; try assumption.
  rewrite (avg_days_between_eq _ _ _ Hs), gaps_telescope.
  pose proof (sorted_length date dividends) as Hl. rewrite Hs in Hl.
  simpl in Hl. unfold Py.truediv.
  destruct (Z.eqb_spec (Z.of_nat (List.length rest)) 0); [lia|].
  do 3 f_equal. lia.
Qed.

Lemma avg_days_between_span_witness :
  exists lo hi,
    In lo test_events /\ In hi test_events
    /\ Forall (fun e => date lo <= date e <= date hi) test_events
    /\ avg_days_between test_events
       = Ok (inject_Z (date hi - date lo)
             / inject_Z (Z.of_nat (List.length test_events) - 1))%Q.
Proof.
  apply (avg_days_between_span test_events). simpl. lia.
Defined.

(** X5: the average interval does not depend on the order of the events:
    two inputs with the same events give the same result, the same
    exception included. *)
Theorem avg_days_between_order (l1 l2 : list Dividend) :
  Permutation l1 l2 -> avg_days_between l1 = avg_days_between l2.
Proof.
  intros Hperm.
  pose proof (sorted_length date l1) as Hl1.
  pose proof (sorted_length date l2) as Hl2.
  pose proof (Permutation_length Hperm) as Hlen.
  destruct (Py.sorted date l1) as [|x1 rest1] eqn:Hs1;
    destruct (Py.sorted date l2) as [|x2 rest2] eqn:Hs2;
    simpl in Hl1, Hl2; try lia.
  - destruct l1; [|discriminate]. destruct l2; [|discriminate]. reflexivity.
  - rewrite (avg_days_between_eq _ _ _ Hs1), (avg_days_between_eq _ _ _ Hs2).
    rewrite !gaps_telescope.
    destruct (sorted_ends l1 x1 rest1 Hs1) as (Hx1 & Hlast1 & Hall1).
    destruct (sorted_ends l2 x2 rest2 Hs2) as (Hx2 & Hlast2 & Hall2).
    rewrite Forall_forall in Hall1, Hall2.
    pose proof (Hall1 x2 (Permutation_in _ (Permutation_sym Hperm) Hx2)).
    pose proof (Hall1 _ (Permutation_in _ (Permutation_sym Hperm) Hlast2)).
    pose proof (Hall2 x1 (Permutation_in _ Hperm Hx1)).
    pose proof (Hall2 _ (Permutation_in _ Hperm Hlast1)).
    f_equal; lia.
Qed.

Lemma avg_days_between_order_witness :
  avg_days_between test_events = avg_days_between spec_events.
Proof.
  apply (avg_days_between_order test_events spec_events).
  exact (Permutation_rev test_events).
Defined.

(** ** Further properties: the daily expansion *)

(** With distinct keys the sorted list depends on the items only, not on
    their order. *)
Lemma sorted_lists_equal {A} (key : A -> Z) (s1 s2 : list A) :
  StronglySorted (key_le key) s1 ->
  StronglySorted (key_le key) s2 ->
  Permutation s1 s2 ->
  NoDup (map key s1) ->
  s1 = s2.
Proof.
  revert s2. induction s1 as [|x t IH]; intros s2 Hs1 Hs2 Hperm Hnd.
  - apply Permutation_nil in Hperm. now subst.
  - destruct s2 as [|x' t'].
    { apply Permutation_sym, Permutation_nil in Hperm. discriminate. }
    inversion Hs1 as [|? ? Ht Hall1]; subst.
    inversion Hs2 as [|? ? Ht' Hall2]; subst.
    inversion Hnd as [|? ? Hni Hnd']; subst.
    rewrite Forall_forall in Hall1, Hall2.
    assert (Hx' : In x' (x :: t)).
    { apply (Permutation_in _ (Permutation_sym Hperm)). now left. }
    assert (Hx : In x (x' :: t')).
    { apply (Permutation_in _ Hperm). now left. }
    assert (Heq : x' = x).
    { destruct Hx' as [E|Hin]; [now symmetry|].
      destruct Hx as [E|Hin']; [exact E|].
      exfalso. apply Hni.
      pose proof (Hall1 x' Hin) as H1. pose proof (Hall2 x Hin') as H2.
      unfold key_le in H1, H2.
      replace (key x) with (key x') by lia. now apply in_map. }
    subst x'. f_equal. apply IH; try assumption.
    now apply Permutation_cons_inv in Hperm.
Qed.

Lemma sorted_order {A} (key : A -> Z) (l1 l2 : list A) :
  Permutation l1 l2 -> NoDup (map key l1) ->
  Py.sorted key l1 = Py.sorted key l2.
Proof.
  intros Hperm Hnd. apply (sorted_lists_equal key).
  - apply sorted_sorted.
  - apply sorted_sorted.
  - eapply perm_trans; [apply Permutation_sym, sorted_perm|].
    eapply perm_trans; [exact Hperm | apply sorted_perm].
  - eapply Permutation_NoDup; [|exact Hnd].
    apply Permutation_map, sorted_perm.
Qed.

(** X6: when the dates are distinct, [daily_dividends] does not depend on
    the order of the events: two inputs with the same events leave the same
    list behind and give the same result. *)
Theorem daily_dividends_order (l1 l2 : list Dividend) (flag : bool) :
  Permutation l1 l2 ->
  NoDup (map date l1) ->
  daily_dividends l1 flag = daily_dividends l2 flag.
Proof.
  intros Hperm Hnd. unfold daily_dividends.
  now rewrite (sorted_order date l1 l2 Hperm Hnd).
Qed.

Lemma daily_dividends_order_witness :
  daily_dividends test_events true = daily_dividends spec_events true.
Proof.
  apply (daily_dividends_order test_events spec_events true).
  - exact (Permutation_rev test_events).
  - exact test_events_distinct.
Defined.

(** X7: a second call on the list that a call left behind finds it sorted:
    it leaves the list as it is and gives the result of the first call. *)
Theorem daily_dividends_again (dividends : list Dividend) (flag : bool) :
  daily_dividends (fst (daily_dividends dividends flag)) flag
  = daily_dividends dividends flag.
Proof.
  unfold daily_dividends. cbn [fst]. now rewrite !sorted_idem.
Qed.

(** A loop whose steps append an item or raise one given exception raises
    it when a step does. *)
Lemma for_each_raise {A B} (f : A -> B) (e : exn)
  (body : list B -> A -> result (list B)) (items : list A) (acc : list B) :
  (forall acc' d, In d items ->
     body acc' d = Ok (acc' ++ [f d]) \/ body acc' d = Raise e) ->
  (exists d, In d items /\ forall acc', body acc' d = Raise e) ->
  for_each body items acc = Raise e.
Proof.
  revert acc. induction items as [|d items IH]; intros acc Hbody (bad & Hin & Hbad).
  - contradiction.
  - cbn [for_each]. destruct (Hbody acc d (or_introl eq_refl)) as [Hok|Herr].
    + rewrite Hok. cbn [bind]. apply IH.
      * intros acc' d' Hd'. apply Hbody. now right.
      * destruct Hin as [<-|Hin].
        -- rewrite Hbad in Hok. discriminate.
        -- exists bad. split; assumption.
    + now rewrite Herr.
Qed.

(** An inner loop appends the records of the period, or raises [TypeError]
    at its first step when the source has no amount, or raises
    [OverflowError] when a day of the period is past 9999-12-31. *)
Lemma spread_outcome (src : Dividend) (g : Z) (days : list Dividend) :
  (spread src g days = Ok (days ++ period src g)
   /\ date src + g <= Datetime.max_ordinal + 1)
  \/ (spread src g days = Raise TypeError /\ dividend src = None /\ 0 < g)
  \/ (spread src g days = Raise OverflowError
      /\ Datetime.max_ordinal + 1 < date src + g).
Proof.
  pose proof (date_range src) as Hsrc.
  destruct (Z.leb_spec g 0) as [Hg|Hg].
  { left. split; [|lia]. apply spread_period; [now right | lia]. }
  destruct (dividend src) as [a|] eqn:Ha.
  - destruct (Z.leb_spec (date src + g) (Datetime.max_ordinal + 1)) as [Hmax|Hmax].
    + left. split; [|exact Hmax]. apply spread_period; [|exact Hmax].
      left. unfold has_amount. now rewrite Ha.
    + right. right. split; [|exact Hmax].
      unfold spread. rewrite Ha.
      apply (for_each_raise
               (fun d => mkDividend (date src + d) (Some (a / inject_Z g)%Q))).
      * intros acc d Hd. apply range_In in Hd.
        destruct (Z.leb_spec (date src + d) Datetime.max_ordinal).
        -- left. rewrite add_days_ok by lia. cbn [bind amount_div].
           destruct (Z.eqb_spec g 0); [lia | reflexivity].
        -- right. now rewrite add_days_overflow by lia.
      * exists (g - 1). split; [apply range_In; lia|].
        intros acc. now rewrite add_days_overflow by lia.
  - right. left. split; [|split; [reflexivity | exact Hg]].
    unfold spread, Py.range.
    destruct (Z.to_nat g) as [|k] eqn:Hk; [lia|].
    cbn [seq map for_each]. rewrite Ha.
    rewrite add_days_ok by (cbn; lia). reflexivity.
Qed.

(** The interpolation loop builds the interpolation, or raises [TypeError]
    on an event without amount: its days are never past the next event. *)
Lemma interpolate_outcome (pre : list Dividend) (p : Dividend)
  (rest days : list Dividend) :
  for_each (interpolate_body (pre ++ p :: rest))
           (Py.enumerate_from (Z.of_nat (List.length pre) + 1) rest) days
  = Ok (days ++ interpolation (p :: rest))
  \/ (for_each (interpolate_body (pre ++ p :: rest))
               (Py.enumerate_from (Z.of_nat (List.length pre) + 1) rest) days
      = Raise TypeError
      /\ exists ev, In ev (p :: rest) /\ dividend ev = None).
Proof.
  revert pre p days. induction rest as [|next rest IH]; intros pre p days.
  - left. simpl. now rewrite app_nil_r.
  - cbn [Py.enumerate_from for_each]. unfold interpolate_body at 1 3.
    destruct (Z.eqb_spec (Z.of_nat (List.length pre) + 1) 0) as [E|_]; [lia|].
    replace (Z.of_nat (List.length pre) + 1 - 1)
      with (Z.of_nat (List.length pre)) by lia.
    rewrite index_middle. cbn [bind].
    destruct (spread_outcome p (days_between (date next) (date p)) days)
      as [[Hok _]|[(Herr & Hnone & _)|[_ Hover]]].
    + rewrite Hok. cbn [bind].
      replace (pre ++ p :: next :: rest) with ((pre ++ [p]) ++ next :: rest)
        by now rewrite <- app_assoc.
      replace (Z.of_nat (List.length pre) + 1 + 1)
        with (Z.of_nat (List.length (pre ++ [p])) + 1)
        by (rewrite length_app; simpl; lia).
      destruct (IH (pre ++ [p]) next
                  (days ++ period p (days_between (date next) (date p))))
        as [Hok'|(Herr' & ev & Hev & Hnone)].
      * left. rewrite Hok'. rewrite pairs_cons_interpolation.
        unfold gap, days_between. cbn [fst snd]. now rewrite <- app_assoc.
      * right. split; [exact Herr'|]. exists ev. split; [now right | exact Hnone].
    + right. rewrite Herr. split; [reflexivity|].
      exists p. split; [now left | exact Hnone].
    + exfalso. unfold days_between in Hover.
      pose proof (date_range next). lia.
Qed.

(** X8: the exceptions of [daily_dividends].  It raises [ValueError] only
    on no events, [OverflowError] only when an event is dated 9999-12-31
    or, with the extrapolation on, when the extrapolated days of an event
    pass that day, [ZeroDivisionError] only on a single event with the
    extrapolation on, and [TypeError] only when an event has no amount; it
    raises nothing else: its assertions never fail and its indices are
    never out of range. *)
Theorem daily_dividends_errors (dividends : list Dividend) (flag : bool)
  (e : exn) :
  snd (daily_dividends dividends flag) = Raise e ->
  (e = ValueError /\ dividends = [])
  \/ (e = OverflowError
      /\ exists ev, In ev dividends
                    /\ (date ev = Datetime.max_ordinal
                        \/ (flag = true
                            /\ Datetime.max_ordinal + 1
                               < date ev + extrapolation_days dividends)))
  \/ (e = ZeroDivisionError /\ flag = true /\ List.length dividends = 1%nat)
  \/ (e = TypeError /\ exists ev, In ev dividends /\ dividend ev = None).
Proof.
  unfold daily_dividends. cbn [snd].
  pose proof (sorted_perm date dividends) as Hperm.
  pose proof (sorted_sorted date dividends) as Hs.
  destruct (Py.sorted date dividends) as [|x rest] eqn:Hsorted.
  - apply Permutation_sym, Permutation_nil in Hperm. subst.
    cbn. intros H. left. split; [congruence | reflexivity].
  - rewrite (daily_dividends_sorted_asserts x rest flag Hs).
    assert (Hin : forall ev, In ev (x :: rest) -> In ev dividends).
    { intros ev Hev. apply (Permutation_in _ (Permutation_sym Hperm) Hev). }
    pose proof (date_range (last rest x)) as Hrange.
    destruct (Z.ltb_spec (date (last rest x)) Datetime.max_ordinal) as [Hlt|Hge].
    2:{ intros H. inversion H; subst. right. left. split; [reflexivity|].
        exists (last rest x). split; [apply Hin, last_In|]. left. lia. }
    pose proof (interpolate_outcome [] x rest []) as Hloop.
    cbn [List.length app Z.of_nat Z.add] in Hloop.
    destruct Hloop as [Hok|(Herr & ev & Hev & Hnone)].
    + rewrite Hok. cbn [bind app]. destruct flag; [|discriminate].
      destruct rest as [|y rest].
      * cbn. intros H. right. right. left. inversion H; subst.
        apply Permutation_length in Hperm. simpl in Hperm. auto.
      * rewrite (avg_days_between_ok (x :: y :: rest)) by (simpl; lia).
        cbn [bind].
        assert (Hg : Py.ceil (mean (map gap
                                 (pairs (Py.sorted date (x :: y :: rest)))))
                     = extrapolation_days dividends).
        { unfold extrapolation_days. rewrite Hsorted.
          now rewrite <- Hsorted, sorted_idem. }
        rewrite Hg.
        match goal with
        | |- spread ?src ?g ?days = _ -> _ =>
            destruct (spread_outcome src g days)
              as [[Hok' _]|[(Herr & Hnone & _)|[Herr Hover]]]
        end.
        -- rewrite Hok'. discriminate.
        -- rewrite Herr. intros H. inversion H; subst. right. right. right.
           split; [reflexivity|]. exists (last (y :: rest) x).
           split; [apply Hin, last_In | exact Hnone].
        -- rewrite Herr. intros H. inversion H; subst. right. left.
           split; [reflexivity|]. exists (last (y :: rest) x).
           split; [apply Hin, last_In|]. right. split; [reflexivity | exact Hover].
    + rewrite Herr. cbn [bind]. intros H. inversion H; subst. right. right. right.
      split; [reflexivity|]. exists ev. split; [now apply Hin | exact Hnone].
Qed.

Lemma daily_dividends_errors_witness :
  (OverflowError = ValueError
   /\ [mkDividend (ymd 9999 12 1) (Some (3 # 10)%Q);
       mkDividend (ymd 9999 12 20) (Some (3 # 10)%Q)] = [])
  \/ (OverflowError = OverflowError
      /\ exists ev,
           In ev [mkDividend (ymd 9999 12 1) (Some (3 # 10)%Q);
                  mkDividend (ymd 9999 12 20) (Some (3 # 10)%Q)]
           /\ (date ev = Datetime.max_ordinal
               \/ (true = true
                   /\ Datetime.max_ordinal + 1
                      < date ev
                        + extrapolation_days
                            [mkDividend (ymd 9999 12 1) (Some (3 # 10)%Q);
                             mkDividend (ymd 9999 12 20)
                               (Some (3 # 10)%Q)])))
  \/ (OverflowError = ZeroDivisionError /\ true = true
      /\ List.length [mkDividend (ymd 9999 12 1) (Some (3 # 10)%Q);
                      mkDividend (ymd 9999 12 20) (Some (3 # 10)%Q)]
         = 1%nat)
  \/ (OverflowError = TypeError
      /\ exists ev,
           In ev [mkDividend (ymd 9999 12 1) (Some (3 # 10)%Q);
                  mkDividend (ymd 9999 12 20) (Some (3 # 10)%Q)]
           /\ dividend ev = None).
Proof.
  apply (daily_dividends_errors
           [mkDividend (ymd 9999 12 1) (Some (3 # 10)%Q);
            mkDividend (ymd 9999 12 20) (Some (3 # 10)%Q)] true
           OverflowError).
  vm_compute. reflexivity.
Defined.

(** When [daily_dividends] returns, no event is dated 9999-12-31 and it
    returns the interpolation of the sorted events, followed with the
    extrapolation on by the period of the last event, whose days are in the
    library's range. *)
Lemma daily_dividends_ok (dividends : list Dividend) (flag : bool)
  (days : list Dividend) :
  snd (daily_dividends dividends flag) = Ok days ->
  exists x rest,
    Py.sorted date dividends = x :: rest
    /\ date (last rest x) < Datetime.max_ordinal
    /\ if flag then
         exists avg,
           avg_days_between dividends = Ok avg
           /\ date (last rest x) + Py.ceil avg <= Datetime.max_ordinal + 1
           /\ days = interpolation (x :: rest)
                     ++ period (last rest x) (Py.ceil avg)
       else days = interpolation (x :: rest).
Proof.
  unfold daily_dividends. cbn [snd].
  pose proof (sorted_sorted date dividends) as Hs.
  destruct (Py.sorted date dividends) as [|x rest] eqn:Hsorted;
    [discriminate|].
  rewrite (daily_dividends_sorted_asserts x rest flag Hs).
  destruct (Z.ltb_spec (date (last rest x)) Datetime.max_ordinal) as [Hlt|Hge];
    [|discriminate].
  assert (Hid : Py.sorted date (x :: rest) = x :: rest).
  { rewrite <- Hsorted. apply sorted_idem. }
  rewrite (avg_days_between_eq _ _ _ Hid).
  rewrite <- (avg_days_between_eq _ _ _ Hsorted).
  pose proof (interpolate_outcome [] x rest []) as Hloop.
  cbn [List.length app Z.of_nat Z.add] in Hloop.
  destruct Hloop as [Hok|(Herr & _)]; [|rewrite Herr; discriminate].
  rewrite Hok. cbn [bind app]. intros H. exists x, rest.
  split; [reflexivity|]. split; [exact Hlt|]. destruct flag; [|congruence].
  destruct (avg_days_between dividends) as [avg|e]; [|discriminate].
  cbn [bind] in H. exists avg. split; [reflexivity|].
  destruct (spread_outcome (last rest x) (Py.ceil avg)
              (interpolation (x :: rest)))
    as [[Hok' Hmax]|[(Herr & _)|[Herr _]]]; [|congruence|congruence].
  split; [exact Hmax | congruence].
Qed.

Lemma seq_offset (n m : nat) :
  map Z.of_nat (seq n m)
  = map (fun d => Z.of_nat n + d) (map Z.of_nat (seq 0 m)).
Proof.
  induction n as [|n IH].
  - rewrite <- (map_id (map Z.of_nat (seq 0 m))) at 1.
    apply map_ext. intros d. simpl. lia.
  - rewrite <- seq_shift, map_map.
    transitivity (map (fun d => 1 + d) (map Z.of_nat (seq n m))).
    + rewrite map_map. apply map_ext. intros k. lia.
    + rewrite IH, map_map. apply map_ext. intros d. lia.
Qed.

(** The days of two periods that follow each other are the days of one
    period. *)
Lemma range_app (s a b : Z) :
  0 <= a -> 0 <= b ->
  map (fun d => s + d) (Py.range (a + b))
  = map (fun d => s + d) (Py.range a)
    ++ map (fun d => s + a + d) (Py.range b).
Proof.
  intros Ha Hb. unfold Py.range.
  rewrite Z2Nat.inj_add by lia.
  rewrite seq_app, !map_app. f_equal.
  cbn [Nat.add]. rewrite seq_offset, !map_map.
  apply map_ext. intros d. lia.
Qed.

Lemma period_dates_eq (src : Dividend) (g : Z) :
  date src + g <= Datetime.max_ordinal + 1 ->
  map date (period src g) = map (fun d => date src + d) (Py.range g).
Proof.
  intros Hmax. unfold period. rewrite map_map.
  apply map_ext_in. intros d Hd. apply range_In in Hd.
  pose proof (date_range src). apply date_mkDividend. lia.
Qed.

(** The dates of the interpolation of sorted events are the days from the
    first date up to, and without, the last. *)
Lemma interpolation_dates (x : Dividend) (rest : list Dividend) :
  StronglySorted date_le (x :: rest) ->
  map date (interpolation (x :: rest))
  = map (fun d => date x + d) (Py.range (date (last rest x) - date x)).
Proof.
  revert x. induction rest as [|y rest IH]; intros x Hs.
  - cbn [last]. now rewrite Z.sub_diag.
  - rewrite pairs_cons_interpolation, map_app, last_cons.
    rewrite period_dates_eq
      by (unfold gap; cbn [fst snd]; pose proof (date_range y); lia).
    inversion Hs as [|? ? Hs' Hall]; subst.
    rewrite (IH y Hs'). unfold gap. cbn [fst snd].
    pose proof (sorted_last_latest y rest Hs') as Hlast.
    inversion Hlast as [|? ? Hy _]; subst.
    inversion Hall as [|? ? Hxy _]; subst. unfold date_le in Hxy.
    replace (date (last rest y) - date x)
      with ((date y - date x) + (date (last rest y) - date y)) by lia.
    rewrite range_app by lia. f_equal.
    apply map_ext. intros d. lia.
Qed.

(** When [daily_dividends] returns, the dates of its records are the days
    from the first date of the sorted events on, as many as there are
    records. *)
Lemma daily_dividends_dates (dividends : list Dividend) (flag : bool)
  (days : list Dividend) :
  snd (daily_dividends dividends flag) = Ok days ->
  exists x rest,
    Py.sorted date dividends = x :: rest
    /\ map date days
       = map (fun d => date x + d) (Py.range (Z.of_nat (List.length days))).
Proof.
  intros Hrun.
  destruct (daily_dividends_ok dividends flag days Hrun)
    as (x & rest & Hs & _ & Hdays).
  assert (Hsorted : StronglySorted date_le (x :: rest)).
  { rewrite <- Hs. apply (sorted_sorted date). }
  pose proof (sorted_last_latest x rest Hsorted) as Hlast.
  inversion Hlast as [|? ? Hspan _]; subst.
  exists x, rest. split; [exact Hs|].
  assert (Hdates : exists n, 0 <= n /\
            map date days = map (fun d => date x + d) (Py.range n)).
  { destruct flag.
    - destruct Hdays as (avg & _ & Hmax & ->).
      rewrite map_app, (period_dates_eq _ _ Hmax),
        (interpolation_dates x rest Hsorted).
      destruct (Z.leb_spec (Py.ceil avg) 0) as [Hg|Hg].
      + exists (date (last rest x) - date x). split; [lia|].
        rewrite (range_nonpos (Py.ceil avg)) by exact Hg.
        now rewrite app_nil_r.
      + exists (date (last rest x) - date x + Py.ceil avg). split; [lia|].
        rewrite range_app by lia. f_equal.
        apply map_ext. intros d. lia.
    - subst days. exists (date (last rest x) - date x). split; [lia|].
      now apply interpolation_dates. }
  destruct Hdates as (n & Hn & Hdates).
  assert (Hlen : Z.of_nat (List.length days) = n).
  { rewrite <- (length_map date), Hdates, length_map, range_length. lia. }
  now rewrite Hlen.
Qed.

(** X9: whenever [daily_dividends] returns, its records are dated on
    consecutive days, in ascending order, from the earliest date of the
    events on: one record per day, no day left out and none twice. *)
Theorem daily_dividends_consecutive (dividends : list Dividend)
  (flag : bool) (days : list Dividend) :
  snd (daily_dividends dividends flag) = Ok days ->
  exists first,
    In first dividends
    /\ Forall (fun e => date first <= date e) dividends
    /\ map date days
       = calendar_days (date first)
           (date first + Z.of_nat (List.length days) - 1).
Proof.
  intros Hrun.
  destruct (daily_dividends_dates dividends flag days Hrun)
    as (x & rest & Hs & Hdates).
  destruct (sorted_ends dividends x rest Hs) as (Hx & _ & Hall).
  exists x. split; [exact Hx|]. split.
  { eapply Forall_impl; [|exact Hall]. intros e He. simpl in He. lia. }
  unfold calendar_days. rewrite Hdates. do 2 f_equal. lia.
Qed.

Lemma daily_dividends_consecutive_witness :
  exists first,
    In first test_events
    /\ Forall (fun e => date first <= date e) test_events
    /\ map date (interpolation (Py.sorted date test_events))
       = calendar_days (date first)
           (date first
            + Z.of_nat (List.length
                          (interpolation (Py.sorted date test_events))) - 1).
Proof.
  apply (daily_dividends_consecutive test_events false
           (interpolation (Py.sorted date test_events))).
  vm_compute. reflexivity.
Defined.

(** X10: the number of daily records.  For two events or more that carry
    amounts, none dated 9999-12-31 and none so late that the extrapolated
    days would pass 9999-12-31, the expansion without extrapolation has one
    record per day from the earliest date up to, and without, the latest;
    with the extrapolation it has as many more as the ceiling of the
    average interval, which is the mean of the gaps of the sorted events,
    rounded up. *)
Theorem daily_dividends_count (dividends : list Dividend) :
  (2 <= List.length dividends)%nat ->
  forallb has_amount dividends = true ->
  before_last_day dividends = true ->
  extrapolation_in_range dividends = true ->
  exists lo hi avg off on,
    In lo dividends /\ In hi dividends
    /\ Forall (fun e => date lo <= date e <= date hi) dividends
    /\ avg_days_between dividends = Ok avg
    /\ Py.ceil avg = extrapolation_days dividends
    /\ snd (daily_dividends dividends false) = Ok off
    /\ Z.of_nat (List.length off) = date hi - date lo
    /\ snd (daily_dividends dividends true) = Ok on
    /\ Z.of_nat (List.length on) = date hi - date lo + Py.ceil avg.
Proof.
  intros Hlen Ham Hbefore Hrange.
  assert (Hne : dividends <> []).
  { destruct dividends; [simpl in Hlen; lia | discriminate]. }
  destruct (daily_dividends_eq dividends false Hne Ham Hbefore)
    as (x & rest & Hs & Hoff).
  destruct (daily_dividends_eq dividends true Hne Ham Hbefore)
    as (x' & rest' & Hs' & Hon).
  rewrite Hs in Hs'. inversion Hs'; subst x' rest'. clear Hs'.
  destruct (sorted_ends dividends x rest Hs) as (Hx & Hlast & Hall).
  assert (Hsorted : StronglySorted date_le (x :: rest)).
  { rewrite <- Hs. apply (sorted_sorted date). }
  pose proof (avg_days_between_ok dividends Hlen) as Havg.
  assert (Hmax : date (last rest x) + extrapolation_days dividends
                 <= Datetime.max_ordinal + 1).
  { apply Z.leb_le.
    exact (proj1 (forallb_forall _ _) Hrange (last rest x) Hlast). }
  unfold extrapolation_days in Hmax.
  set (avg := mean (map gap (pairs (Py.sorted date dividends)))) in *.
  assert (Hg : 0 <= Py.ceil avg).
  { unfold Py.ceil. change 0 with (Qceiling 0).
    apply Qceiling_resp_le, mean_gaps_nonneg. apply (sorted_sorted date). }
  assert (Hspan : date x <= date (last rest x)).
  { pose proof (sorted_last_latest x rest Hsorted) as H.
    now inversion H. }
  assert (Hcount : Z.of_nat (List.length (interpolation (x :: rest)))
                   = date (last rest x) - date x).
  { rewrite <- (length_map date), (interpolation_dates x rest Hsorted).
    rewrite length_map, range_length. lia. }
  exists x, (last rest x), avg, (interpolation (x :: rest)),
    (interpolation (x :: rest) ++ period (last rest x) (Py.ceil avg)).
  repeat split; try assumption.
  - now rewrite Hoff.
  - rewrite Hon, Havg. cbn [snd bind].
    apply spread_period; [|exact Hmax].
    left. exact (proj1 (forallb_forall _ _) Ham (last rest x) Hlast).
  - rewrite length_app, Nat2Z.inj_add, Hcount, period_length. lia.
Qed.

Lemma daily_dividends_count_witness :
  exists lo hi avg off on,
    In lo test_events /\ In hi test_events
    /\ Forall (fun e => date lo <= date e <= date hi) test_events
    /\ avg_days_between test_events = Ok avg
    /\ Py.ceil avg = extrapolation_days test_events
    /\ snd (daily_dividends test_events false) = Ok off
    /\ Z.of_nat (List.length off) = date hi - date lo
    /\ snd (daily_dividends test_events true) = Ok on
    /\ Z.of_nat (List.length on) = date hi - date lo + Py.ceil avg.
Proof.
  apply (daily_dividends_count test_events).
  - simpl. lia.
  - reflexivity.
  - reflexivity.
  - vm_compute. reflexivity.
Defined.

(** X11: every daily record carries an amount, and when no event has a
    negative amount no daily record has one: if the events carry amounts,
    none negative, and [daily_dividends] returns, then each record it
    returns carries an amount that is not negative. *)
Theorem daily_amounts_not_negative (dividends : list Dividend)
  (flag : bool) (days : list Dividend) :
  Forall (fun e => exists a, dividend e = Some a /\ (0 <= a)%Q) dividends ->
  snd (daily_dividends dividends flag) = Ok days ->
  Forall (fun r => exists a, dividend r = Some a /\ (0 <= a)%Q) days.
Proof.
  intros Hall Hrun.
  destruct (daily_dividends_ok dividends flag days Hrun)
    as (x & rest & Hs & _ & Hdays).
  assert (Hall' : forall e, In e (x :: rest) ->
                            exists a, dividend e = Some a /\ (0 <= a)%Q).
  { rewrite Forall_forall in Hall. intros e He. apply Hall.
    apply (Permutation_in _ (Permutation_sym (sorted_perm date dividends))).
    now rewrite Hs. }
  assert (Hperiod : forall src g r, In src (x :: rest) -> In r (period src g) ->
                    exists a, dividend r = Some a /\ (0 <= a)%Q).
  { intros src g r Hsrc Hr. apply period_record in Hr as (Hg & Hr).
    destruct (Hall' src Hsrc) as (a & Ha & Hpos). rewrite Ha in Hr.
    exists (a / inject_Z g)%Q. split; [exact Hr|].
    unfold Qdiv. apply Qmult_le_0_compat; [exact Hpos|].
    apply Qinv_le_0_compat. unfold Qle. simpl. lia. }
  assert (Hinterp : forall r, In r (interpolation (x :: rest)) ->
                    exists a, dividend r = Some a /\ (0 <= a)%Q).
  { intros r Hr. apply interpolation_In in Hr as (prev & next & Hin & Hr).
    apply (Hperiod prev (gap (prev, next)) r); [|exact Hr].
    exact (proj1 (pairs_In _ _ _ Hin)). }
  apply Forall_forall. intros r Hr. destruct flag.
  - destruct Hdays as (avg & _ & _ & ->). apply in_app_or in Hr as [Hr|Hr].
    + now apply Hinterp.
    + apply (Hperiod (last rest x) (Py.ceil avg) r);
        [apply last_In | exact Hr].
  - subst days. now apply Hinterp.
Qed.

Lemma daily_amounts_not_negative_witness :
  Forall (fun r => exists a, dividend r = Some a /\ (0 <= a)%Q)
         (interpolation (Py.sorted date test_events)).
Proof.
  apply (daily_amounts_not_negative test_events false).
  - repeat constructor; eexists; (split; [reflexivity | discriminate]).
  - vm_compute. reflexivity.
Defined.

(** With distinct dates the average interval is a day or more. *)
Lemma mean_gaps_positive (l : list Dividend) :
  (2 <= List.length l)%nat ->
  (forall prev next, In (prev, next) (pairs l) -> 0 < gap (prev, next)) ->
  (1 <= mean (map gap (pairs l)))%Q.
Proof.
  intros Hlen Hgap. unfold mean.
  assert (Hsum : Z.of_nat (List.length (map gap (pairs l)))
                 <= fold_right Z.add 0 (map gap (pairs l))).
  { induction (pairs l) as [|[a b] ps IH]; [simpl; lia|].
    cbn [map fold_right List.length]. rewrite Nat2Z.inj_succ.
    pose proof (Hgap a b (or_introl eq_refl)).
    assert (Z.of_nat (List.length (map gap ps))
            <= fold_right Z.add 0 (map gap ps)).
    { apply IH. intros prev next Hin. apply Hgap. now right. }
    lia. }
  assert (Hn : 0 < Z.of_nat (List.length (map gap (pairs l)))).
  { rewrite length_map. destruct l as [|x rest]; [simpl in Hlen; lia|].
    rewrite pairs_length. simpl in Hlen. lia. }
  apply Qle_shift_div_l.
  - unfold Qlt. simpl. lia.
  - rewrite Qmult_1_l. rewrite <- Zle_Qle. exact Hsum.
Qed.

(** X13: with distinct dates the extrapolated period has a day or more, so
    with the extrapolation on the date of the latest event, which the
    interpolation leaves out, is covered: for two events or more with
    distinct dates that carry amounts, none dated 9999-12-31 and none so
    late that the extrapolated days would pass 9999-12-31, the result has a
    record on the latest event's date, with that event's amount divided by
    the ceiling of the average interval, which is the mean of the gaps of
    the sorted events, rounded up. *)
Theorem extrapolation_covers_latest (dividends : list Dividend) :
  (2 <= List.length dividends)%nat ->
  NoDup (map date dividends) ->
  forallb has_amount dividends = true ->
  before_last_day dividends = true ->
  extrapolation_in_range dividends = true ->
  exists latest a avg days,
    In latest dividends
    /\ Forall (fun e => date e <= date latest) dividends
    /\ dividend latest = Some a
    /\ avg_days_between dividends = Ok avg
    /\ Py.ceil avg = extrapolation_days dividends
    /\ 1 <= Py.ceil avg
    /\ snd (daily_dividends dividends true) = Ok days
    /\ In (mkDividend (date latest) (Some (a / inject_Z (Py.ceil avg))%Q))
          days.
Proof.
  intros Hlen Hnd Ham Hbefore Hrange.
  assert (Hne : dividends <> []).
  { destruct dividends; [simpl in Hlen; lia | discriminate]. }
  destruct (daily_dividends_eq dividends true Hne Ham Hbefore)
    as (x & rest & Hs & Hon).
  pose proof (sorted_perm date dividends) as Hperm. rewrite Hs in Hperm.
  destruct (sorted_ends dividends x rest Hs) as (_ & Hlast & Hall).
  assert (Hmax : date (last rest x) + extrapolation_days dividends
                 <= Datetime.max_ordinal + 1).
  { apply Z.leb_le.
    exact (proj1 (forallb_forall _ _) Hrange (last rest x) Hlast). }
  unfold extrapolation_days in Hmax. rewrite Hs in Hmax.
  assert (Hsorted : StronglySorted date_le (x :: rest)).
  { rewrite <- Hs. apply (sorted_sorted date). }
  assert (Hgap : forall prev next, In (prev, next) (pairs (x :: rest)) ->
                                   0 < gap (prev, next)).
  { intros prev next Hin.
    pose proof (pairs_sorted _ _ _ Hsorted Hin).
    assert (Hnd' : NoDup (map date (x :: rest))).
    { eapply Permutation_NoDup; [|exact Hnd]. now apply Permutation_map. }
    pose proof (pairs_distinct _ _ _ Hnd' Hin).
    unfold gap. simpl. lia. }
  pose proof (avg_days_between_ok dividends Hlen) as Havg.
  rewrite Hs in Havg.
  set (avg := mean (map gap (pairs (x :: rest)))) in *.
  assert (Hg : 1 <= Py.ceil avg).
  { unfold Py.ceil. change 1 with (Qceiling 1).
    apply Qceiling_resp_le, mean_gaps_positive; [|exact Hgap].
    rewrite <- Hs, sorted_length. exact Hlen. }
  assert (Hlast_amount : exists a, dividend (last rest x) = Some a).
  { pose proof (proj1 (forallb_forall _ _) Ham (last rest x) Hlast) as H.
    unfold has_amount in H.
    destruct (dividend (last rest x)) as [a|]; [now exists a | discriminate]. }
  destruct Hlast_amount as (a & Ha).
  exists (last rest x), a, avg,
    (interpolation (x :: rest) ++ period (last rest x) (Py.ceil avg)).
  split; [exact Hlast|]. split.
  { eapply Forall_impl; [|exact Hall]. intros e He. simpl in He. lia. }
  split; [exact Ha|]. split; [exact Havg|].
  split; [unfold extrapolation_days; now rewrite Hs|].
  split; [exact Hg|].
  split.
  { rewrite Hon, Havg. cbn [snd bind].
    apply spread_period; [|exact Hmax].
    left. exact (proj1 (forallb_forall _ _) Ham (last rest x) Hlast). }
  apply in_or_app. right. unfold period. rewrite Ha. cbn [option_map].
  apply in_map_iff. exists 0. split.
  - now rewrite Z.add_0_r.
  - apply range_In. lia.
Qed.

Lemma extrapolation_covers_latest_witness :
  exists latest a avg days,
    In latest test_events
    /\ Forall (fun e => date e <= date latest) test_events
    /\ dividend latest = Some a
    /\ avg_days_between test_events = Ok avg
    /\ Py.ceil avg = extrapolation_days test_events
    /\ 1 <= Py.ceil avg
    /\ snd (daily_dividends test_events true) = Ok days
    /\ In (mkDividend (date latest) (Some (a / inject_Z (Py.ceil avg))%Q))
          days.
Proof.
  apply (extrapolation_covers_latest test_events).
  - simpl. lia.
  - exact test_events_distinct.
  - reflexivity.
  - reflexivity.
  - vm_compute. reflexivity.
Defined.

(** ** Further properties: the parser *)

Section ParserFacts.
Variable strptime : string -> result datetime.
Variable float_of_str : string -> result Q.

(** What [read_src_file] does, in terms of the rows that are not blank. *)
Lemma read_src_file_rows (file : list (list string)) :
  read_src_file strptime float_of_str file
  = match csv_file file with
    | [] => Raise StopIteration
    | _ :: rows =>
        events <- events_in_row_order strptime float_of_str rows ;;
        Ok (Py.sorted date events)
    end.
Proof.
  unfold read_src_file. destruct (csv_file file) as [|header rows];
    [reflexivity|].
  rewrite read_loop.
  now destruct (events_in_row_order strptime float_of_str rows).
Qed.

Lemma csv_file_app (file1 file2 : list (list string)) :
  csv_file (file1 ++ file2) = csv_file file1 ++ csv_file file2.
Proof.
  induction file1 as [|cells file1 IH]; [reflexivity|].
  cbn [app csv_file]. rewrite IH. now destruct (DictReader_row cells).
Qed.

Lemma csv_file_blank (file : list (list string)) :
  Forall (fun cells => cells = []) file -> csv_file file = [].
Proof.
  induction 1 as [|cells file Hc _ IH]; [reflexivity|].
  subst cells. exact IH.
Qed.

Lemma csv_file_filter (file : list (list string)) :
  csv_file (filter (fun cells => match cells with
                                 | [] => false
                                 | _ :: _ => true
                                 end) file)
  = csv_file file.
Proof.
  induction file as [|cells file IH]; [reflexivity|].
  destruct cells as [|d [|v rest]]; cbn [filter csv_file DictReader_row];
    now rewrite IH.
Qed.

Lemma events_in_row_order_length (rows : list row_dict)
  (events : list Dividend) :
  events_in_row_order strptime float_of_str rows = Ok events ->
  List.length events = List.length rows.
Proof.
  revert events. induction rows as [|r rows IH]; intros events H.
  - inversion H. reflexivity.
  - cbn [events_in_row_order] in H.
    destruct (Dividend_kwargs strptime float_of_str r) as [e|]; [|discriminate].
    cbn [bind] in H.
    destruct (events_in_row_order strptime float_of_str rows) as [es|];
      [|discriminate].
    inversion H; subst. simpl. now rewrite (IH es).
Qed.

Lemma events_in_row_order_first_error (good : list row_dict)
  (events : list Dividend) (r : row_dict) (rest : list row_dict) (e : exn) :
  events_in_row_order strptime float_of_str good = Ok events ->
  Dividend_kwargs strptime float_of_str r = Raise e ->
  events_in_row_order strptime float_of_str (good ++ r :: rest) = Raise e.
Proof.
  revert events. induction good as [|g good IH]; intros events Hgood Hr.
  - cbn [app events_in_row_order]. now rewrite Hr.
  - cbn [app events_in_row_order] in *.
    destruct (Dividend_kwargs strptime float_of_str g) as [ev|]; [|discriminate].
    cbn [bind] in *.
    destruct (events_in_row_order strptime float_of_str good) as [es|];
      [|discriminate].
    now rewrite (IH es eq_refl Hr).
Qed.

(** X14: the parser never looks at the header row and never sees a blank
    row: putting another header in place of the header, and taking the
    blank rows out of the file, change nothing in what it returns or
    raises. *)
Theorem read_src_file_header_and_blanks (header header' : list string)
  (data : list (list string)) :
  header <> [] -> header' <> [] ->
  read_src_file strptime float_of_str (header :: data)
  = read_src_file strptime float_of_str
      (header' :: filter (fun cells => match cells with
                                       | [] => false
                                       | _ :: _ => true
                                       end) data).
Proof.
  intros Hh Hh'. rewrite !read_src_file_rows. cbn [csv_file].
  rewrite csv_file_filter.
  destruct header as [|d [|v rest]]; [congruence| |];
    destruct header' as [|d' [|v' rest']]; try congruence; reflexivity.
Qed.

(** X15: the parser on a file without data.  A file with no row, or with
    blank rows only, makes it raise [StopIteration] (there is no header to
    skip); a file with a header and no other row that is not blank makes it
    return no event. *)
Theorem read_src_file_no_data (before after : list (list string))
  (cells : list string) :
  Forall (fun cells => cells = []) before ->
  Forall (fun cells => cells = []) after ->
  cells <> [] ->
  read_src_file strptime float_of_str before = Raise StopIteration
  /\ read_src_file strptime float_of_str (before ++ cells :: after) = Ok [].
Proof.
  intros Hb Ha Hc. rewrite !read_src_file_rows, csv_file_app.
  rewrite (csv_file_blank before Hb). split; [reflexivity|].
  cbn [app csv_file]. rewrite (csv_file_blank after Ha).
  destruct cells as [|d [|v rest]]; [congruence| |]; reflexivity.
Qed.

(** X16: the parser stops at the first row that does not convert: when the
    rows before it convert, the parser raises what the conversion of that
    row raises, whatever comes after; for a row of more than two cells
    this is [TypeError]. *)
Theorem read_src_file_first_error (header : list string)
  (good : list (list string)) (events : list Dividend)
  (cells : list string) (r : row_dict) (rest : list (list string))
  (e : exn) :
  header <> [] ->
  events_in_row_order strptime float_of_str (csv_file good) = Ok events ->
  DictReader_row cells = Some r ->
  Dividend_kwargs strptime float_of_str r = Raise e ->
  read_src_file strptime float_of_str (header :: good ++ cells :: rest)
  = Raise e
  /\ ((3 <= List.length cells)%nat -> e = TypeError).
Proof.
  intros Hh Hgood Hcells Hr. split.
  - rewrite read_src_file_rows. cbn [csv_file].
    assert (Heq : csv_file (good ++ cells :: rest)
                  = csv_file good ++ r :: csv_file rest).
    { rewrite csv_file_app. cbn [csv_file]. now rewrite Hcells. }
    rewrite Heq.
    destruct header as [|d [|v more]]; [congruence| |];
      cbn [DictReader_row];
      now rewrite (events_in_row_order_first_error _ _ _ _ _ Hgood Hr).
  - intros Hlen. destruct cells as [|d [|v [|w more]]];
      try (simpl in Hlen; lia).
    inversion Hcells; subst r. cbn in Hr. congruence.
Qed.

(** X17: when the parser returns, it returns one event for each row after
    the header that is not blank. *)
Theorem read_src_file_count (header : list string)
  (data : list (list string)) (events : list Dividend) :
  header <> [] ->
  read_src_file strptime float_of_str (header :: data) = Ok events ->
  List.length events = List.length (csv_file data).
Proof.
  intros Hh. rewrite read_src_file_rows. cbn [csv_file].
  assert (Hrows : forall rows,
            (es <- events_in_row_order strptime float_of_str rows ;;
             Ok (Py.sorted date es)) = Ok events ->
            List.length events = List.length rows).
  { intros rows H.
    destruct (events_in_row_order strptime float_of_str rows) as [es|] eqn:Hes;
      [|discriminate].
    cbn [bind] in H. inversion H; subst.
    rewrite sorted_length. now apply events_in_row_order_length. }
  destruct header as [|d [|v rest]]; [congruence| |];
    cbn [DictReader_row]; apply Hrows.
Qed.

End ParserFacts.

Lemma read_src_file_header_and_blanks_witness :
  read_src_file Text.strptime Text.float_of_str
    [["Date"; "Dividends"]; ["2020-10-10"; "0.3"]; [];
     ["2020-09-10"; "0.3"]]%string
  = read_src_file Text.strptime Text.float_of_str
      [["x"]; ["2020-10-10"; "0.3"]; ["2020-09-10"; "0.3"]]%string.
Proof.
  apply (read_src_file_header_and_blanks Text.strptime Text.float_of_str
           ["Date"; "Dividends"]%string ["x"]%string
           [["2020-10-10"; "0.3"]; []; ["2020-09-10"; "0.3"]]%string);
    discriminate.
Defined.

Lemma read_src_file_no_data_witness :
  read_src_file Text.strptime Text.float_of_str [[]] = Raise StopIteration
  /\ read_src_file Text.strptime Text.float_of_str
       ([[]] ++ ["Date"; "Dividends"]%string :: [[]]) = Ok [].
Proof.
  apply (read_src_file_no_data Text.strptime Text.float_of_str [[]] [[]]
           ["Date"; "Dividends"]%string).
  - repeat constructor.
  - repeat constructor.
  - discriminate.
Defined.

Lemma read_src_file_first_error_witness :
  read_src_file Text.strptime Text.float_of_str
    (["Date"; "Dividends"]
     :: [["2020-10-10"; "0.3"]]
        ++ ["2020-09-10"; "0.3"; "x"] :: [["not a date"; "0.3"]])%string
  = Raise TypeError
  /\ ((3 <= List.length ["2020-09-10"; "0.3"; "x"]%string)%nat ->
      TypeError = TypeError).
Proof.
  apply (read_src_file_first_error Text.strptime Text.float_of_str
           ["Date"; "Dividends"]%string
           [["2020-10-10"; "0.3"]]%string
           [mkDividend (ymd 2020 10 10) (Some (3 # 10)%Q)]
           ["2020-09-10"; "0.3"; "x"]%string
           (mkRow "2020-09-10" (Some "0.3"%string) ["x"%string])
           [["not a date"; "0.3"]]%string TypeError).
  - discriminate.
  - vm_compute. reflexivity.
  - reflexivity.
  - reflexivity.
Defined.

Lemma read_src_file_count_witness :
  List.length [mkDividend (ymd 2020 9 10) (Some (3 # 10)%Q);
               mkDividend (ymd 2020 10 10) (Some (3 # 10)%Q)]
  = List.length (csv_file [["2020-10-10"; "0.3"];
                           ["2020-09-10"; "0.3"]]%string).
Proof.
  apply (read_src_file_count Text.strptime Text.float_of_str
           ["Date"; "Dividends"]%string
           [["2020-10-10"; "0.3"]; ["2020-09-10"; "0.3"]]%string).
  - discriminate.
  - vm_compute. reflexivity.
Defined.

(** ** Further properties: the writer and the pipeline *)

(** The rows [write_csv_file] writes: the header, then one row of two cells
    for each record, in the order of the records. *)
Lemma write_csv_file_rows (strftime : datetime -> string)
  (str_of_float : Q -> string) (dividends : list Dividend) :
  write_csv_file strftime str_of_float dividends
  = ["Date"; "Dividend"]%string
    :: map (fun d => [strftime (date d);
                      dividend_cell str_of_float (dividend d)]) dividends.
Proof.
  unfold write_csv_file.
  assert (H : forall acc,
            fold_left (fun csvfile d =>
                         csvfile ++ [[strftime (date d);
                                      dividend_cell str_of_float (dividend d)]])
                      dividends acc
            = acc ++ map (fun d => [strftime (date d);
                                    dividend_cell str_of_float (dividend d)])
                         dividends).
  { induction dividends as [|d dividends IH]; intros acc.
    - simpl. now rewrite app_nil_r.
    - cbn [fold_left map]. rewrite IH. now rewrite <- app_assoc. }
  now rewrite H.
Qed.

(** Sorting two lists whose items agree on their keys, item by item, keeps
    them in agreement. *)
Lemma insert_Forall2 {A} (key : A -> Z) (R : A -> A -> Prop)
  (x x' : A) (l l' : list A) :
  (forall a b, R a b -> key a = key b) ->
  R x x' -> Forall2 R l l' ->
  Forall2 R (Py.insert key x l) (Py.insert key x' l').
Proof.
  intros Hkey Hx Hl. induction Hl as [|y y' l l' Hy Hl IH].
  - now repeat constructor.
  - cbn [Py.insert]. rewrite (Hkey _ _ Hx), (Hkey _ _ Hy).
    destruct (key x' <=? key y'); repeat constructor; assumption.
Qed.

Lemma sorted_Forall2 {A} (key : A -> Z) (R : A -> A -> Prop)
  (l l' : list A) :
  (forall a b, R a b -> key a = key b) ->
  Forall2 R l l' ->
  Forall2 R (Py.sorted key l) (Py.sorted key l').
Proof.
  intros Hkey. induction 1 as [|x x' l l' Hx _ IH]; [constructor|].
  cbn [Py.sorted]. now apply insert_Forall2.
Qed.

Lemma Dividend_eqb_date (a b : Dividend) :
  Dividend_eqb a b = true -> date a = date b.
Proof.
  unfold Dividend_eqb. destruct (Z.eqb_spec (date a) (date b)); [auto|].
  discriminate.
Qed.

Section RoundTrip.
Variable strptime : string -> result datetime.
Variable float_of_str : string -> result Q.
Variable strftime : datetime -> string.
Variable str_of_float : Q -> string.

(** The rows written for records convert back to equal records, when the
    library's conversions undo each other on them. *)
Lemma written_rows_convert (days : list Dividend) :
  (forall d, In d days -> strptime (strftime (date d)) = Ok (date d)) ->
  (forall d, In d days ->
     exists x y, dividend d = Some x
                 /\ float_of_str (str_of_float x) = Ok y /\ (y == x)%Q) ->
  exists events,
    events_in_row_order strptime float_of_str
      (csv_file (map (fun d => [strftime (date d);
                                dividend_cell str_of_float (dividend d)])
                     days)) = Ok events
    /\ same_records days events.
Proof.
  induction days as [|d days IH]; intros Hdate Hamount.
  - exists []. split; [reflexivity | constructor].
  - destruct IH as (events & Hev & Hsame).
    { intros d' Hd'. apply Hdate. now right. }
    { intros d' Hd'. apply Hamount. now right. }
    destruct (Hamount d (or_introl eq_refl)) as (x & y & Hx & Hy & Hxy).
    exists (mkDividend (date d) (Some y) :: events). split.
    + cbn [map csv_file DictReader_row events_in_row_order].
      unfold Dividend_kwargs, Dividend_init. cbn [row_rest row_date row_dividend].
      rewrite (Hdate d (or_introl eq_refl)). cbn [bind].
      rewrite Hx. cbn [dividend_cell]. rewrite Hy. cbn [bind].
      rewrite Hev. reflexivity.
    + constructor; [|exact Hsame].
      unfold Dividend_eqb.
      rewrite (date_mkDividend _ _ (date_range d)), dividend_mkDividend.
      rewrite Z.eqb_refl, Hx. cbn [negb amount_eqb].
      assert (Hq : Qeq_bool x y = true).
      { apply Qeq_bool_iff. now symmetry. }
      now rewrite Hq.
Qed.

(** X18: reading back what was written.  When the library's conversions
    undo each other on the records ([strptime] on the text of each date,
    [float] on the text of each amount) and every record carries an amount,
    the parser, run on the file that [write_csv_file] writes for the
    records, returns records equal to them, sorted by date. *)
Theorem write_then_read (days : list Dividend) :
  (forall d, In d days -> strptime (strftime (date d)) = Ok (date d)) ->
  (forall d, In d days ->
     exists x y, dividend d = Some x
                 /\ float_of_str (str_of_float x) = Ok y /\ (y == x)%Q) ->
  exists out,
    read_src_file strptime float_of_str
      (write_csv_file strftime str_of_float days) = Ok out
    /\ same_records (Py.sorted date days) out.
Proof.
  intros Hdate Hamount.
  destruct (written_rows_convert days Hdate Hamount) as (events & Hev & Hsame).
  exists (Py.sorted date events). split.
  - rewrite write_csv_file_rows, read_src_file_rows.
    cbn [csv_file DictReader_row]. rewrite Hev. reflexivity.
  - apply sorted_Forall2; [|exact Hsame].
    intros a b. apply Dividend_eqb_date.
Qed.

End RoundTrip.

Lemma write_then_read_witness :
  exists out,
    read_src_file Text.strptime Text.float_of_str
      (write_csv_file Format.strftime Format.str_of_float
         [mkDividend (ymd 2020 10 12) (Some (1 # 4)%Q);
          mkDividend (ymd 2020 10 10) (Some (3 # 10)%Q)]) = Ok out
    /\ same_records
         (Py.sorted date [mkDividend (ymd 2020 10 12) (Some (1 # 4)%Q);
                          mkDividend (ymd 2020 10 10) (Some (3 # 10)%Q)])
         out.
Proof.
  apply (write_then_read Text.strptime Text.float_of_str
           Format.strftime Format.str_of_float).
  - intros d [<-|[<-|[]]]; vm_compute; reflexivity.
  - intros d [<-|[<-|[]]].
    + exists (1 # 4)%Q, (25 # 100)%Q.
      split; [reflexivity|]. split; [vm_compute; reflexivity | reflexivity].
    + exists (3 # 10)%Q, (3 # 10)%Q.
      split; [reflexivity|]. split; [vm_compute; reflexivity | reflexivity].
Defined.

(** Records on consecutive days are in the order of their dates. *)
Lemma range_sorted (s : Z) (a n : nat) :
  StronglySorted Z.le (map (fun d => s + d) (map Z.of_nat (seq a n))).
Proof.
  revert a. induction n as [|n IH]; intros a; [constructor|].
  cbn [seq map]. constructor; [apply IH|].
  apply Forall_forall. intros z Hz.
  rewrite map_map in Hz. apply in_map_iff in Hz as (k & <- & Hk).
  apply in_seq in Hk. lia.
Qed.

Lemma sorted_of_dates (l : list Dividend) :
  StronglySorted Z.le (map date l) -> StronglySorted date_le l.
Proof.
  induction l as [|x l IH]; intros Hs; [constructor|].
  cbn [map] in Hs. inversion Hs as [|? ? Hs' Hall]; subst.
  constructor; [now apply IH|].
  rewrite Forall_forall in *. intros y Hy.
  apply (Hall (date y)), in_map, Hy.
Qed.

Section PipelineFacts.
Variable strptime : string -> result datetime.
Variable float_of_str : string -> result Q.
Variable strftime : datetime -> string.
Variable str_of_float : Q -> string.

(** X19: the daily series reads back as it is.  When [daily_dividends]
    returns a series and the library's conversions undo each other on its
    records, each of which carries an amount, the parser, run on the file
    that [write_csv_file] writes for the series, returns records equal to
    the series, in the same order: the series is written in the order of
    its dates. *)
Theorem daily_series_reads_back (dividends : list Dividend) (flag : bool)
  (days : list Dividend) :
  snd (daily_dividends dividends flag) = Ok days ->
  (forall d, In d days -> strptime (strftime (date d)) = Ok (date d)) ->
  (forall d, In d days ->
     exists x y, dividend d = Some x
                 /\ float_of_str (str_of_float x) = Ok y /\ (y == x)%Q) ->
  exists out,
    read_src_file strptime float_of_str
      (write_csv_file strftime str_of_float days) = Ok out
    /\ same_records days out.
Proof.
  intros Hrun Hdate Hamount.
  destruct (written_rows_convert strptime float_of_str strftime str_of_float
              days Hdate Hamount) as (events & Hev & Hsame).
  destruct (daily_dividends_dates dividends flag days Hrun)
    as (x & rest & _ & Hdates).
  assert (Hsorted : Py.sorted date days = days).
  { apply sorted_id, sorted_of_dates. rewrite Hdates. apply range_sorted. }
  exists (Py.sorted date events). split.
  - rewrite write_csv_file_rows, read_src_file_rows.
    cbn [csv_file DictReader_row]. rewrite Hev. reflexivity.
  - rewrite <- Hsorted at 1. apply sorted_Forall2; [|exact Hsame].
    intros a b. apply Dividend_eqb_date.
Qed.

(** What [main] does on a source whose rows convert. *)
Lemma main_composes_helper (header : list string)
  (data : list (list string)) (events : list Dividend) :
  header <> [] ->
  events_in_row_order strptime float_of_str (csv_file data) = Ok events ->
  main strptime float_of_str strftime str_of_float (Some (header :: data))
  = (days <- snd (daily_dividends events predict_future_dividend_default) ;;
     Ok (None, Some (write_csv_file strftime str_of_float days))).
Proof.
  intros Hh Hev. unfold main.
  assert (Hread : read_src_file strptime float_of_str (header :: data)
                  = Ok (Py.sorted date events)).
  { rewrite read_src_file_rows. cbn [csv_file].
    destruct header as [|d [|v rest]]; [congruence| |];
      cbn [DictReader_row]; now rewrite Hev. }
  rewrite Hread. cbn [bind]. unfold daily_dividends. cbn [snd].
  now rewrite sorted_idem.
Qed.

(** X20: [main] composes the parser, the expansion and the writer.  On a
    source with a header whose other rows convert to events, [main] writes
    the expansion, with the extrapolation, of these events, or raises what
    the expansion raises; and when the dates are distinct, a source with
    the same header and the same rows in another order gives the same
    outcome. *)
Theorem main_composes (header : list string) (data : list (list string))
  (events : list Dividend) :
  header <> [] ->
  events_in_row_order strptime float_of_str (csv_file data) = Ok events ->
  main strptime float_of_str strftime str_of_float (Some (header :: data))
  = (days <- snd (daily_dividends events predict_future_dividend_default) ;;
     Ok (None, Some (write_csv_file strftime str_of_float days)))
  /\ forall data' events',
       events_in_row_order strptime float_of_str (csv_file data')
       = Ok events' ->
       Permutation events events' ->
       NoDup (map date events) ->
       main strptime float_of_str strftime str_of_float
         (Some (header :: data'))
       = main strptime float_of_str strftime str_of_float
           (Some (header :: data)).
Proof.
  intros Hh Hev. split.
  - now apply main_composes_helper.
  - intros data' events' Hev' Hperm Hnd.
    rewrite (main_composes_helper header data events Hh Hev).
    rewrite (main_composes_helper header data' events' Hh Hev').
    unfold daily_dividends. cbn [snd].
    now rewrite (sorted_order date events events' Hperm Hnd).
Qed.

(** X21: [main] on no data.  Without a source file it returns 1 and writes
    nothing; on a source with a header and no other row that is not blank
    it raises [ValueError]; and on a source with a header and rows that
    convert to one event it raises [ZeroDivisionError], or [OverflowError]
    when that event is dated 9999-12-31: in these cases nothing is
    written. *)
Theorem main_without_data (header : list string)
  (blanks data : list (list string)) (e : Dividend) :
  header <> [] ->
  Forall (fun cells => cells = []) blanks ->
  events_in_row_order strptime float_of_str (csv_file data) = Ok [e] ->
  main strptime float_of_str strftime str_of_float None = Ok (Some 1, None)
  /\ main strptime float_of_str strftime str_of_float
       (Some (header :: blanks))
     = Raise ValueError
  /\ main strptime float_of_str strftime str_of_float (Some (header :: data))
     = Raise (if date e <? Datetime.max_ordinal
              then ZeroDivisionError else OverflowError).
Proof.
  intros Hh Hblank He. split; [reflexivity|]. split.
  - rewrite (main_composes_helper header blanks [] Hh).
    + reflexivity.
    + now rewrite (csv_file_blank blanks Hblank).
  - rewrite (main_composes_helper header data [e] Hh He).
    unfold daily_dividends, predict_future_dividend_default. cbn [snd].
    cbn [Py.sorted Py.insert].
    rewrite (daily_dividends_sorted_asserts e [] true)
      by (constructor; constructor).
    cbn [last]. destruct (date e <? Datetime.max_ordinal); reflexivity.
Qed.

End PipelineFacts.

Lemma daily_series_reads_back_witness :
  exists out,
    read_src_file Text.strptime Text.float_of_str
      (write_csv_file Format.strftime Format.str_of_float
         [mkDividend (ymd 2020 10 10) (Some (3 # 20)%Q);
          mkDividend (ymd 2020 10 11) (Some (3 # 20)%Q);
          mkDividend (ymd 2020 10 12) (Some (1 # 4)%Q);
          mkDividend (ymd 2020 10 13) (Some (1 # 4)%Q)]) = Ok out
    /\ same_records
         [mkDividend (ymd 2020 10 10) (Some (3 # 20)%Q);
          mkDividend (ymd 2020 10 11) (Some (3 # 20)%Q);
          mkDividend (ymd 2020 10 12) (Some (1 # 4)%Q);
          mkDividend (ymd 2020 10 13) (Some (1 # 4)%Q)]
         out.
Proof.
  apply (daily_series_reads_back Text.strptime Text.float_of_str
           Format.strftime Format.str_of_float
           [mkDividend (ymd 2020 10 12) (Some (1 # 2)%Q);
            mkDividend (ymd 2020 10 10) (Some (3 # 10)%Q)] true).
  - vm_compute. reflexivity.
  - intros d [<-|[<-|[<-|[<-|[]]]]]; vm_compute; reflexivity.
  - intros d [<-|[<-|[<-|[<-|[]]]]].
    + exists (3 # 20)%Q, (15 # 100)%Q.
      split; [reflexivity|]. split; vm_compute; reflexivity.
    + exists (3 # 20)%Q, (15 # 100)%Q.
      split; [reflexivity|]. split; vm_compute; reflexivity.
    + exists (1 # 4)%Q, (25 # 100)%Q.
      split; [reflexivity|]. split; vm_compute; reflexivity.
    + exists (1 # 4)%Q, (25 # 100)%Q.
      split; [reflexivity|]. split; vm_compute; reflexivity.
Defined.

Lemma main_composes_witness :
  main Text.strptime Text.float_of_str Format.strftime Format.str_of_float
    (Some unordered_file)
  = (days <- snd (daily_dividends
                    [mkDividend (ymd 2020 10 10) (Some (3 # 10)%Q);
                     mkDividend (ymd 2020 9 10) (Some (3 # 10)%Q)]
                    predict_future_dividend_default) ;;
     Ok (None,
         Some (write_csv_file Format.strftime Format.str_of_float days))).
Proof.
  apply (main_composes Text.strptime Text.float_of_str
           Format.strftime Format.str_of_float
           ["Date"; "Dividends"]%string
           [["2020-10-10"; "0.3"]; ["2020-09-10"; "0.3"]]%string).
  - discriminate.
  - vm_compute. reflexivity.
Defined.

Lemma main_without_data_witness :
  main Text.strptime Text.float_of_str Format.strftime Format.str_of_float
    None = Ok (Some 1, None)
  /\ main Text.strptime Text.float_of_str Format.strftime
       Format.str_of_float (Some [["Date"; "Dividends"]; []]%string)
     = Raise ValueError
  /\ main Text.strptime Text.float_of_str Format.strftime
       Format.str_of_float
       (Some [["Date"; "Dividends"]; ["2020-10-10"; "0.3"]]%string)
     = Raise ZeroDivisionError.
Proof.
  apply (main_without_data Text.strptime Text.float_of_str
           Format.strftime Format.str_of_float
           ["Date"; "Dividends"]%string [[]]
           [["2020-10-10"; "0.3"]]%string
           (mkDividend (ymd 2020 10 10) (Some (3 # 10)%Q))).
  - discriminate.
  - repeat constructor.
  - vm_compute. reflexivity.
Defined.

(** ** Further properties: equality of records and events on one date *)

(** X22: [==] on [Dividend]s is symmetric and transitive, and equal
    records have the same date. *)
Theorem Dividend_eqb_laws (a b c : Dividend) :
  Dividend_eqb a b = true ->
  Dividend_eqb b a = true
  /\ (Dividend_eqb b c = true -> Dividend_eqb a c = true)
  /\ date a = date b.
Proof.
  intros Hab. revert Hab.
  assert (Hsplit : forall u v, Dividend_eqb u v = true <->
                   date u = date v
                   /\ amount_eqb (dividend u) (dividend v) = true).
  { intros u v. unfold Dividend_eqb.
    destruct (Z.eqb_spec (date u) (date v)) as [E|E]; cbn [negb].
    - destruct (amount_eqb (dividend u) (dividend v)); cbn [negb];
        intuition congruence.
    - intuition congruence. }
  assert (Hsym : forall x y, amount_eqb x y = true -> amount_eqb y x = true).
  { intros [x|] [y|]; cbn; try congruence.
    rewrite !Qeq_bool_iff. intros H. now symmetry. }
  assert (Htrans : forall x y z, amount_eqb x y = true ->
                   amount_eqb y z = true -> amount_eqb x z = true).
  { intros [x|] [y|] [z|]; cbn; try congruence.
    rewrite !Qeq_bool_iff. intros H1 H2. now rewrite H1. }
  rewrite !Hsplit. intros [Hd Ha]. split; [|split].
  - split; [congruence | now apply Hsym].
  - intros [Hd' Ha']. split; [congruence|].
    now apply (Htrans _ (dividend b)).
  - exact Hd.
Qed.

Lemma Dividend_eqb_laws_witness :
  Dividend_eqb (mkDividend (ymd 2020 8 11) (Some (1 # 100)%Q))
               (mkDividend (ymd 2020 8 11) (Some (3 # 300)%Q)) = true
  /\ (Dividend_eqb (mkDividend (ymd 2020 8 11) (Some (1 # 100)%Q))
                   (mkDividend (ymd 2020 8 11) (Some (2 # 200)%Q)) = true ->
      Dividend_eqb (mkDividend (ymd 2020 8 11) (Some (3 # 300)%Q))
                   (mkDividend (ymd 2020 8 11) (Some (2 # 200)%Q)) = true)
  /\ date (mkDividend (ymd 2020 8 11) (Some (3 # 300)%Q))
     = date (mkDividend (ymd 2020 8 11) (Some (1 # 100)%Q)).
Proof.
  apply (Dividend_eqb_laws
           (mkDividend (ymd 2020 8 11) (Some (3 # 300)%Q))
           (mkDividend (ymd 2020 8 11) (Some (1 # 100)%Q))
           (mkDividend (ymd 2020 8 11) (Some (2 # 200)%Q))).
  vm_compute. reflexivity.
Defined.

(** The interpolation loop when no division is needed: every pair has an
    amount to divide or no day to cover. *)
Lemma interpolate_loop_gaps (pre : list Dividend) (p : Dividend)
  (rest days : list Dividend) :
  (forall prev next, In (prev, next) (pairs (p :: rest)) ->
                     has_amount prev = true \/ gap (prev, next) <= 0) ->
  for_each (interpolate_body (pre ++ p :: rest))
           (Py.enumerate_from (Z.of_nat (List.length pre) + 1) rest) days
  = Ok (days ++ interpolation (p :: rest)).
Proof.
  revert pre p days. induction rest as [|next rest IH]; intros pre p days Hp.
  - simpl. now rewrite app_nil_r.
  - cbn [Py.enumerate_from for_each]. unfold interpolate_body at 1.
    destruct (Z.eqb_spec (Z.of_nat (List.length pre) + 1) 0) as [E|_]; [lia|].
    replace (Z.of_nat (List.length pre) + 1 - 1)
      with (Z.of_nat (List.length pre)) by lia.
    rewrite index_middle. cbn [bind].
    rewrite spread_period;
      [| apply (Hp p next); rewrite pairs_cons; now left
       | unfold days_between; pose proof (date_range next); lia].
    cbn [bind].
    replace (pre ++ p :: next :: rest) with ((pre ++ [p]) ++ next :: rest)
      by now rewrite <- app_assoc.
    replace (Z.of_nat (List.length pre) + 1 + 1)
      with (Z.of_nat (List.length (pre ++ [p])) + 1)
      by (rewrite length_app; simpl; lia).
    rewrite IH.
    + rewrite pairs_cons_interpolation. unfold gap, days_between.
      cbn [fst snd]. now rewrite <- app_assoc.
    + intros prev nxt Hin. apply Hp. rewrite pairs_cons. now right.
Qed.

(** X23: events on one date.  For two events or more that are all on the
    same date, [daily_dividends] returns no record, with the extrapolation
    or without, whether or not the events carry amounts: no day is to be
    covered and nothing is divided.  The one exception is the date
    9999-12-31, on which [daily_dividends] raises [OverflowError]. *)
Theorem daily_dividends_one_date (dividends : list Dividend) (day : datetime)
  (flag : bool) :
  (2 <= List.length dividends)%nat ->
  Forall (fun e => date e = day) dividends ->
  snd (daily_dividends dividends flag)
  = if day <? Datetime.max_ordinal then Ok [] else Raise OverflowError.
Proof.
  intros Hlen Hday. unfold daily_dividends. cbn [snd].
  pose proof (sorted_perm date dividends) as Hperm.
  pose proof (sorted_sorted date dividends) as Hs.
  pose proof (sorted_length date dividends) as Hl.
  assert (Hday' : Forall (fun e => date e = day) (Py.sorted date dividends)).
  { eapply Permutation_Forall; [exact Hperm | exact Hday]. }
  destruct (Py.sorted date dividends) as [|x rest] eqn:Hsorted.
  { simpl in Hl. lia. }
  rewrite Forall_forall in Hday'.
  assert (Hgap : forall prev next, In (prev, next) (pairs (x :: rest)) ->
                                   gap (prev, next) = 0).
  { intros prev next Hin. destruct (pairs_In _ _ _ Hin) as [Hp Hn].
    unfold gap. cbn [fst snd]. rewrite (Hday' prev Hp), (Hday' next Hn). lia. }
  assert (Hinterp : interpolation (x :: rest) = []).
  { unfold interpolation. induction (pairs (x :: rest)) as [|[a b] ps IH];
      [reflexivity|].
    cbn [flat_map]. rewrite (Hgap a b) by now left. cbn [fst].
    unfold period. rewrite range_nonpos by lia. cbn [map app].
    apply IH. intros prev next Hin. apply Hgap. now right. }
  rewrite (daily_dividends_sorted_asserts x rest flag Hs).
  rewrite (Hday' _ (last_In x rest)).
  destruct (day <? Datetime.max_ordinal) eqn:Hbefore; [|reflexivity].
  pose proof (interpolate_loop_gaps [] x rest []) as Hloop.
  cbn [List.length app Z.of_nat Z.add] in Hloop.
  rewrite Hloop by (intros prev next Hin; right; rewrite (Hgap _ _ Hin); lia).
  rewrite Hinterp. cbn [bind]. destruct flag; [|reflexivity].
  assert (Hid : Py.sorted date (x :: rest) = x :: rest).
  { rewrite <- Hsorted. apply sorted_idem. }
  rewrite (avg_days_between_eq _ _ _ Hid), gaps_telescope.
  rewrite (Hday' x (or_introl eq_refl)), (Hday' _ (last_In x rest)).
  rewrite Z.sub_diag. unfold Py.truediv.
  destruct (Z.eqb_spec (Z.of_nat (List.length rest)) 0) as [E|_];
    [simpl in Hl; lia|].
  cbn [bind].
  assert (Hceil : Py.ceil (inject_Z 0 / inject_Z (Z.of_nat (List.length rest)))
                  = 0).
  { unfold Py.ceil.
    assert (Hq : (inject_Z 0 / inject_Z (Z.of_nat (List.length rest)) == 0)%Q).
    { unfold Qdiv. change (inject_Z 0) with 0%Q. ring. }
    now rewrite Hq. }
  rewrite Hceil.
  rewrite spread_period;
    [| right; lia | pose proof (date_range (last rest x)); lia].
  unfold period. now rewrite range_nonpos by lia.
Qed.

Lemma daily_dividends_one_date_witness :
  snd (daily_dividends [mkDividend (ymd 2020 8 11) None;
                        mkDividend (ymd 2020 8 11) (Some (3 # 10)%Q)] true)
  = Ok []
  /\ snd (daily_dividends [mkDividend (ymd 9999 12 31) (Some (3 # 10)%Q);
                           mkDividend (ymd 9999 12 31) (Some (3 # 10)%Q)]
                          false)
     = Raise OverflowError.
Proof.
  split.
  - apply (daily_dividends_one_date
             [mkDividend (ymd 2020 8 11) None;
              mkDividend (ymd 2020 8 11) (Some (3 # 10)%Q)]
             (ymd 2020 8 11) true).
    + simpl. lia.
    + repeat constructor.
  - apply (daily_dividends_one_date
             [mkDividend (ymd 9999 12 31) (Some (3 # 10)%Q);
              mkDividend (ymd 9999 12 31) (Some (3 # 10)%Q)]
             (ymd 9999 12 31) false).
    + simpl. lia.
    + repeat constructor.
Defined.
